(** * Password-recovery wizard and HTTP client shim

    A shallow embedding of [src/pages/ForgotPassword.tsx] (the recovery
    wizard, a React function component) and of the axios configuration
    module (the shared HTTP client with its request interceptor).

    - A JavaScript string is a [string] holding the UTF-8 bytes of its
      (well-formed) text; [js_length] is its [.length], which counts
      UTF-16 code units, and [String.eqb] its [===].  The empty literal is
      [EmptyString].
    - The component's [useState] cells form the record [State].  A handler
      is a function from the state it closed over (the state of the render
      that created it) to the ordered list of effects it performs: the
      calls to the state setters, to [apiClient.post] and to [setTimeout].
      The outcome of the awaited request is an argument of the handler.
    - Setters are absolute assignments, so a list of effects is replayed
      on whatever the component state is when the effects take place. *)

From Stdlib Require Import NArith Lia Ascii.
From stdpp Require Import gmap strings list fin_maps.

Local Open Scope string_scope.
Local Open Scope list_scope.

(** The UTF-16 code units one byte of UTF-8 text stands for: a byte that
    starts a character of one, two or three bytes stands for one unit, a
    byte that starts a character of four bytes for two (a surrogate pair),
    and a continuation byte ([10xxxxxx]) for none. *)
Definition utf16_units (b : ascii) : nat :=
  match b with
  | Ascii _ _ _ _ b4 b5 b6 b7 =>
      if negb b7 then 1
      else if negb b6 then 0
      else if b5 && b4 then 2
      else 1
  end.

(** [s.length]: the number of UTF-16 code units of the text. *)
Fixpoint js_length (s : string) : nat :=
  match s with
  | EmptyString => 0
  | String b rest => utf16_units b + js_length rest
  end.

(** JavaScript truthiness of a string: every string but the empty one. *)
Definition truthy (s : string) : bool := negb (String.eqb s EmptyString).

(** [a || b] where [a] is a string or [undefined]. *)
Definition or_else (a : option string) (b : string) : string :=
  match a with
  | Some v => if truthy v then v else b
  | None => b
  end.

(** Truthiness of an object or [null]. *)
Definition non_null {A} (o : option A) : bool :=
  match o with
  | Some _ => true
  | None => false
  end.

(** [x && <div>{x}</div>] for a string [x]. *)
Definition box (x : string) : option string :=
  if truthy x then Some x else None.

(** ** What axios hands to the caller *)

Module Axios.

(** The body of an error response; [error] is its conventional field. *)
Record ErrorData := { error : option string }.

Record ErrorResponse := { data : option ErrorData }.

(** The value a rejected request is rejected with. *)
Record AxiosError := { response : option ErrorResponse }.

(** [error.response?.data?.error] *)
Definition response_data_error (e : AxiosError) : option string :=
  match response e with
  | None => None
  | Some r =>
      match data r with
      | None => None
      | Some d => error d
      end
  end.

(** How the promise returned by [apiClient.post] settles. *)
Inductive Settled (A : Type) :=
| fulfilled (response_data : A)
| rejected (reason : AxiosError).
Arguments fulfilled {A} _.
Arguments rejected {A} _.

End Axios.
Import Axios.

(** ** The recovery wizard *)

Module ForgotPassword.

(** [type RecoveryMethod = 'telegram' | 'email' | null]; [null] is [None]. *)
Inductive RecoveryMethod := method_telegram | method_email.

Record RecoveryOptions := {
  telegram : bool;
  email : bool;
  emailMasked : option string
}.

(** The [useState] cells of the component, in declaration order. *)
Record State := {
  telegramId : string;
  code : string;
  newPassword : string;
  confirmPassword : string;
  oldPassword : string;
  error : string;
  success : string;
  loading : bool;
  codeSent : bool;
  useOldPassword : bool;
  recoveryOptions : option RecoveryOptions;
  selectedMethod : option RecoveryMethod;
  optionsLoading : bool
}.

(** The state on mount. *)
Definition initial : State := {|
  telegramId := EmptyString; code := EmptyString;
  newPassword := EmptyString; confirmPassword := EmptyString;
  oldPassword := EmptyString; error := EmptyString; success := EmptyString;
  loading := false; codeSent := false; useOldPassword := false;
  recoveryOptions := None; selectedMethod := None; optionsLoading := false
|}.

(** Values that appear in request bodies. *)
Inductive JsValue :=
| JsNumberOf (text : string)        (* Number(text) *)
| JsString (s : string)
| JsNull.

Definition method_value (m : option RecoveryMethod) : JsValue :=
  match m with
  | Some method_telegram => JsString "telegram"
  | Some method_email => JsString "email"
  | None => JsNull
  end.

Definition Body := list (string * JsValue).

(** The arrow function passed to [setTimeout]: [() => navigate(path)]. *)
Inductive Callback := navigate_to (path : string).

(** The observable actions of the handlers. *)
Inductive Effect :=
| preventDefault
| setTelegramId (v : string)
| setCode (v : string)
| setNewPassword (v : string)
| setConfirmPassword (v : string)
| setOldPassword (v : string)
| setError (v : string)
| setSuccess (v : string)
| setLoading (v : bool)
| setCodeSent (v : bool)
| setUseOldPassword (v : bool)
| setRecoveryOptions (v : option RecoveryOptions)
| setSelectedMethod (v : option RecoveryMethod)
| setOptionsLoading (v : bool)
| post (url : string) (body : Body)           (* await apiClient.post(url, body) *)
| setTimeout (callback : Callback) (ms : N).

Definition Script := list Effect.

(** The effect of one action on the component state. *)
Definition update (e : Effect) (s : State) : State :=
  let '{| telegramId := a1; code := a2; newPassword := a3;
          confirmPassword := a4; oldPassword := a5; error := a6;
          success := a7; loading := a8; codeSent := a9;
          useOldPassword := a10; recoveryOptions := a11;
          selectedMethod := a12; optionsLoading := a13 |} := s in
  match e with
  | setTelegramId v => Build_State v a2 a3 a4 a5 a6 a7 a8 a9 a10 a11 a12 a13
  | setCode v => Build_State a1 v a3 a4 a5 a6 a7 a8 a9 a10 a11 a12 a13
  | setNewPassword v => Build_State a1 a2 v a4 a5 a6 a7 a8 a9 a10 a11 a12 a13
  | setConfirmPassword v => Build_State a1 a2 a3 v a5 a6 a7 a8 a9 a10 a11 a12 a13
  | setOldPassword v => Build_State a1 a2 a3 a4 v a6 a7 a8 a9 a10 a11 a12 a13
  | setError v => Build_State a1 a2 a3 a4 a5 v a7 a8 a9 a10 a11 a12 a13
  | setSuccess v => Build_State a1 a2 a3 a4 a5 a6 v a8 a9 a10 a11 a12 a13
  | setLoading v => Build_State a1 a2 a3 a4 a5 a6 a7 v a9 a10 a11 a12 a13
  | setCodeSent v => Build_State a1 a2 a3 a4 a5 a6 a7 a8 v a10 a11 a12 a13
  | setUseOldPassword v => Build_State a1 a2 a3 a4 a5 a6 a7 a8 a9 v a11 a12 a13
  | setRecoveryOptions v => Build_State a1 a2 a3 a4 a5 a6 a7 a8 a9 a10 v a12 a13
  | setSelectedMethod v => Build_State a1 a2 a3 a4 a5 a6 a7 a8 a9 a10 a11 v a13
  | setOptionsLoading v => Build_State a1 a2 a3 a4 a5 a6 a7 a8 a9 a10 a11 a12 v
  | preventDefault | post _ _ | setTimeout _ _ => s
  end.

(** Replay a script on a component state, first action first. *)
Fixpoint apply (sc : Script) (s : State) : State :=
  match sc with
  | [] => s
  | e :: rest => apply rest (update e s)
  end.

(** The network calls of a script, in order. *)
Fixpoint calls (sc : Script) : list (string * Body) :=
  match sc with
  | [] => []
  | post url body :: rest => (url, body) :: calls rest
  | _ :: rest => calls rest
  end.

(** The part of a script that runs before its first [await] resolves
    (the request itself included), and the part that runs after. *)
Fixpoint until_await (sc : Script) : Script :=
  match sc with
  | [] => []
  | post url body :: _ => [post url body]
  | e :: rest => e :: until_await rest
  end.

Fixpoint after_await (sc : Script) : Script :=
  match sc with
  | [] => []
  | post _ _ :: rest => rest
  | _ :: rest => after_await rest
  end.

Section Component.

(** [t] of [useLanguage()]: a message key and its interpolation
    parameters give the localized text. *)
Variable translate : string -> list (string * string) -> string.

Definition t (key : string) : string := translate key [].

Definition handleCheckOptions (s : State)
    (result : Settled RecoveryOptions) : Script :=
  [preventDefault; setError EmptyString; setOptionsLoading true;
   post "/auth/recovery-options" [("telegramId", JsNumberOf (telegramId s))]]
  ++ match result with
     | fulfilled response_data =>
         setRecoveryOptions (Some response_data)
         :: (if telegram response_data && negb (email response_data)
             then [setSelectedMethod (Some method_telegram)]
             else if negb (telegram response_data) && email response_data
             then [setSelectedMethod (Some method_email)]
             else [])
     | rejected err =>
         [setError (or_else (response_data_error err)
                            (t "forgotPassword.errors.resetFailed"))]
     end
  ++ [setOptionsLoading false].

Definition handleRequestCode (s : State) (result : Settled unit) : Script :=
  [setError EmptyString; setSuccess EmptyString; setLoading true;
   post "/auth/forgot-password"
        [("telegramId", JsNumberOf (telegramId s));
         ("method", method_value (selectedMethod s))]]
  ++ match result with
     | fulfilled _ =>
         [setCodeSent true;
          setSuccess (match selectedMethod s with
                      | Some method_email => t "forgotPassword.codeSentEmail"
                      | _ => t "forgotPassword.codeSent"
                      end)]
     | rejected err =>
         [setError (or_else (response_data_error err)
                            (t "forgotPassword.errors.resetFailed"))]
     end
  ++ [setLoading false].

Definition handleResetPassword (s : State) (result : Settled unit) : Script :=
  [preventDefault; setError EmptyString; setSuccess EmptyString]
  ++ if negb (String.eqb (newPassword s) (confirmPassword s)) then
       [setError (t "forgotPassword.errors.mismatch")]
     else if (js_length (newPassword s) <? 6)%nat then
       [setError (t "forgotPassword.errors.tooShort")]
     else
       [setLoading true]
       ++ [if useOldPassword s then
             post "/auth/reset-password-with-old"
                  [("telegramId", JsNumberOf (telegramId s));
                   ("oldPassword", JsString (oldPassword s));
                   ("newPassword", JsString (newPassword s))]
           else
             post "/auth/reset-password"
                  [("telegramId", JsNumberOf (telegramId s));
                   ("code", JsString (code s));
                   ("newPassword", JsString (newPassword s))]]
       ++ match result with
          | fulfilled _ =>
              [setSuccess (t "forgotPassword.passwordReset");
               setTimeout (navigate_to "/login") 2000]
          | rejected err =>
              [setError (or_else (response_data_error err)
                                 (t "forgotPassword.errors.resetFailed"))]
          end
       ++ [setLoading false].

Definition resetState : Script :=
  [setRecoveryOptions None; setSelectedMethod None; setCodeSent false;
   setCode EmptyString; setError EmptyString; setSuccess EmptyString].

(** *** Click handlers written inline in the markup *)

(** Step 1, the toggle button: [() => setUseOldPassword(true)] *)
Definition onClick_useOldPassword : Script := [setUseOldPassword true].

(** Step 2, the method buttons: [() => setSelectedMethod(...)] *)
Definition onClick_method (m : RecoveryMethod) : Script :=
  [setSelectedMethod (Some m)].

(** Step 3, the change-method button: [() => setSelectedMethod(null)] *)
Definition onClick_changeMethod : Script := [setSelectedMethod None].

(** Step 4, the last button. *)
Definition onClick_back (s : State) : Script :=
  (if useOldPassword s
   then [setUseOldPassword false; setOldPassword EmptyString]
   else [setCodeSent false; setCode EmptyString])
  ++ [setError EmptyString; setSuccess EmptyString].

(** *** What the component renders *)

Inductive MethodButton :=
| telegram_button
| email_button (hint : string).

Inductive View :=
| EnterTelegramId (telegramIdInput : string) (errorBox : option string)
    (submitDisabled : bool) (submitLabel : string)
| ChooseMethod (label : string) (methods : list MethodButton)
| SendCode (info : string) (errorBox : option string)
    (buttonDisabled : bool) (buttonLabel : string)
| EnterCodeAndPassword
    (codeInput : option (string * string))            (* value, hint *)
    (oldPasswordInputs : option (string * string))    (* telegramId, oldPassword *)
    (newPasswordInput confirmPasswordInput : string)
    (errorBox successBox : option string)
    (submitDisabled : bool) (submitLabel backLabel : string).

(** The four branches of the markup, numbered as in its comments. *)
Inductive Step := step1 | step2 | step3 | step4.

Definition step_of (v : View) : Step :=
  match v with
  | EnterTelegramId _ _ _ _ => step1
  | ChooseMethod _ _ => step2
  | SendCode _ _ _ _ => step3
  | EnterCodeAndPassword _ _ _ _ _ _ _ _ _ => step4
  end.

Definition view_step1 (s : State) : View :=
  EnterTelegramId (telegramId s) (box (error s)) (optionsLoading s)
    (if optionsLoading s then t "common.loading" else t "forgotPassword.continue").

Definition view_step2 (opts : RecoveryOptions) : View :=
  ChooseMethod (t "forgotPassword.chooseMethod")
    (telegram_button
     :: (if email opts
         then [email_button (or_else (emailMasked opts) EmptyString)]
         else [])).

Definition view_step3 (s : State) (opts : RecoveryOptions)
    (m : RecoveryMethod) : View :=
  SendCode
    (match m with
     | method_email =>
         translate "forgotPassword.sendToEmail"
                   [("email", or_else (emailMasked opts) EmptyString)]
     | method_telegram => t "forgotPassword.sendToTelegram"
     end)
    (box (error s)) (loading s)
    (if loading s then t "forgotPassword.sending"
     else t "forgotPassword.requestCode").

Definition view_step4 (s : State) : View :=
  EnterCodeAndPassword
    (if negb (useOldPassword s)
     then Some (code s,
                match selectedMethod s with
                | Some method_email => t "forgotPassword.resetCodeHintEmail"
                | _ => t "forgotPassword.resetCodeHint"
                end)
     else None)
    (if useOldPassword s then Some (telegramId s, oldPassword s) else None)
    (newPassword s) (confirmPassword s)
    (box (error s)) (box (success s)) (loading s)
    (if loading s then t "forgotPassword.resetting"
     else t "forgotPassword.resetButton")
    (if useOldPassword s then t "forgotPassword.requestCode"
     else t "forgotPassword.requestNewCode").

(** The chain of conditional expressions of the markup:
    [!recoveryOptions && !useOldPassword ? step 1
     : recoveryOptions && !selectedMethod ? step 2
     : recoveryOptions && selectedMethod && !codeSent ? step 3 : step 4].
    An object and a method name are truthy, [null] is not. *)
Definition render (s : State) : View :=
  if negb (non_null (recoveryOptions s)) && negb (useOldPassword s)
  then view_step1 s
  else
    match recoveryOptions s, selectedMethod s with
    | Some opts, None => view_step2 opts
    | Some opts, Some m =>
        if negb (codeSent s) then view_step3 s opts m else view_step4 s
    | None, _ => view_step4 s
    end.

End Component.

(** *** The browser around the component

    Time is a count of milliseconds.  [setTimeout(f, ms)] registers [f] to
    be run once, no earlier than [ms] milliseconds after the call;
    [navigate] is recorded with the time of the call. *)

Record World := {
  component : State;
  clock : N;
  timers : list (N * Callback);          (* due time, callback *)
  navigations : list (N * string);       (* latest first *)
  requests : list (string * Body)        (* latest first *)
}.

(** One action of a handler; an awaited request takes [latency]
    milliseconds to settle. *)
Definition perform (latency : N) (e : Effect) (w : World) : World :=
  match e with
  | post url body =>
      {| component := component w; clock := clock w + latency;
         timers := timers w; navigations := navigations w;
         requests := (url, body) :: requests w |}
  | setTimeout callback ms =>
      {| component := component w; clock := clock w;
         timers := (clock w + ms, callback)%N :: timers w;
         navigations := navigations w; requests := requests w |}
  | _ =>
      {| component := update e (component w); clock := clock w;
         timers := timers w; navigations := navigations w;
         requests := requests w |}
  end.

Fixpoint run (latency : N) (sc : Script) (w : World) : World :=
  match sc with
  | [] => w
  | e :: rest => run latency rest (perform latency e w)
  end.

Definition call (cb : Callback) (w : World) : World :=
  match cb with
  | navigate_to path =>
      {| component := component w; clock := clock w; timers := timers w;
         navigations := (clock w, path) :: navigations w;
         requests := requests w |}
  end.

(** The event loop between handlers: time passes, and a timer that is due
    is taken off the list and its callback run. *)
Inductive loop_step : World -> World -> Prop :=
| loop_tick w d :
    loop_step w
      {| component := component w; clock := clock w + d; timers := timers w;
         navigations := navigations w; requests := requests w |}
| loop_fire w due cb before after :
    timers w = before ++ (due, cb) :: after ->
    (due <= clock w)%N ->
    loop_step w
      (call cb {| component := component w; clock := clock w;
                  timers := before ++ after;
                  navigations := navigations w; requests := requests w |}).

End ForgotPassword.

(** ** The shared HTTP client *)

Module AxiosConfig.

(** The request configuration handed to a request interceptor; [D] is the
    type of the request data. *)
Record RequestConfig (D : Type) := {
  baseURL : string;
  url : string;
  method : string;
  data : D;
  headers : gmap string string
}.
Arguments baseURL {D} _.
Arguments url {D} _.
Arguments method {D} _.
Arguments data {D} _.
Arguments headers {D} _.

(** [localStorage.getItem(key)]; [null] is [None]. *)
Definition getItem (localStorage : gmap string string) (key : string)
    : option string :=
  localStorage !! key.

(** The function registered with [apiClient.interceptors.request.use]. *)
Definition request_interceptor {D} (localStorage : gmap string string)
    (config : RequestConfig D) : RequestConfig D :=
  match getItem localStorage "accessToken" with
  | Some token =>
      if truthy token then
        {| baseURL := baseURL config; url := url config;
           method := method config; data := data config;
           headers := <["Authorization" := String.append "Bearer " token]>
                        (headers config) |}
      else config
  | None => config
  end.

(** [apiClient.post(url, data)]: the configuration of the instance
    ([baseURL: API_URL] and the library's default headers) completed with
    the arguments, then passed through the interceptor. *)
Definition apiClient_post {D} (API_URL : string)
    (defaults : gmap string string) (localStorage : gmap string string)
    (url : string) (data : D) : RequestConfig D :=
  request_interceptor localStorage
    {| baseURL := API_URL; url := url; method := "post"; data := data;
       headers := defaults |}.

End AxiosConfig.

(** ** Vocabulary of the properties *)

Module Wizard.
Import ForgotPassword.

(** The cells that decide which step is rendered, and the input fields:
    every cell but [error], [success], [loading] and [optionsLoading]. *)
Definition same_wizard_state (a b : State) : Prop :=
  recoveryOptions a = recoveryOptions b
  /\ selectedMethod a = selectedMethod b
  /\ codeSent a = codeSent b
  /\ useOldPassword a = useOldPassword b
  /\ telegramId a = telegramId b
  /\ code a = code b
  /\ newPassword a = newPassword b
  /\ confirmPassword a = confirmPassword b
  /\ oldPassword a = oldPassword b.

(** Actions that touch the status cells only (or no cell at all). *)
Definition status_only (e : Effect) : bool :=
  match e with
  | preventDefault | setError _ | setSuccess _ | setLoading _
  | setOptionsLoading _ | post _ _ | setTimeout _ _ => true
  | _ => false
  end.

(** The buttons of the method list, when the view has one. *)
Definition methods_of (v : View) : list MethodButton :=
  match v with
  | ChooseMethod _ methods => methods
  | _ => []
  end.

(** What the error box of a view shows, when the view has one. *)
Definition error_shown (v : View) : option string :=
  match v with
  | EnterTelegramId _ errorBox _ _ => errorBox
  | ChooseMethod _ _ => None
  | SendCode _ errorBox _ _ => errorBox
  | EnterCodeAndPassword _ _ _ _ errorBox _ _ _ _ => errorBox
  end.

(** Every timer pending in [w] was pending in [w0], and every navigation
    recorded in [w] was recorded in [w0] or was made by a timer of [w0]
    no earlier than its due time. *)
Definition accounted_for (w0 w : World) : Prop :=
  (forall x, In x (timers w) -> In x (timers w0))
  /\ (forall tm path, In (tm, path) (navigations w) ->
        In (tm, path) (navigations w0)
        \/ exists due, In (due, navigate_to path) (timers w0)
                       /\ (due <= tm)%N).

End Wizard.

(** ** Inputs used in examples *)

Module Examples.
Import ForgotPassword.

(** A translation table that answers every key with the key itself. *)
Definition keys_as_text (key : string) (params : list (string * string))
    : string := key.

(** The form filled in with a short password and a different confirmation. *)
Definition short_and_mismatched : State :=
  apply [setTelegramId "12345"; setCode "000000";
         setNewPassword "abc"; setConfirmPassword "abd"]
        (update (setRecoveryOptions
                   (Some {| telegram := true; email := false;
                            emailMasked := None |}))
                (update (setSelectedMethod (Some method_telegram))
                        (update (setCodeSent true) initial))).

(** The form filled in with a short password, confirmed. *)
Definition short_and_confirmed : State :=
  update (setConfirmPassword "abc") short_and_mismatched.

(** The form filled in with an acceptable password, confirmed. *)
Definition well_filled : State :=
  apply [setNewPassword "secret1"; setConfirmPassword "secret1"]
        short_and_mismatched.

(** Recovery options as the backend may report them. *)
Definition both_channels : RecoveryOptions :=
  {| telegram := true; email := true; emailMasked := Some "a***@b.com" |}.

Definition only_email : RecoveryOptions :=
  {| telegram := false; email := true; emailMasked := Some "a***@b.com" |}.

Definition no_channel : RecoveryOptions :=
  {| telegram := false; email := false; emailMasked := None |}.

(** Rejections: with a server message, and without a response. *)
Definition server_says (message : string) : AxiosError :=
  {| response := Some {| data := Some {| Axios.error := Some message |} |} |}.

Definition network_down : AxiosError := {| response := None |}.

(** The identifier typed into the first form. *)
Definition identified : State := update (setTelegramId "12345") initial.

(** A lookup is submitted; while it is in flight the old-password button
    of the first form is clicked; then the lookup settles. *)
Definition lookup (answer : RecoveryOptions) : Script :=
  handleCheckOptions keys_as_text identified (fulfilled answer).

Definition lookup_in_flight : State :=
  apply (until_await (lookup both_channels)) identified.

Definition old_password_chosen : State :=
  apply onClick_useOldPassword lookup_in_flight.

Definition lookup_settled (answer : RecoveryOptions) : State :=
  apply (after_await (lookup answer)) old_password_chosen.

(** A browser with nothing pending, showing the component in state [s]. *)
Definition quiet (s : State) : World :=
  {| component := s; clock := 0; timers := []; navigations := [];
     requests := [] |}.

(** The method-selection step for an account with the given options. *)
Definition choosing (opts : RecoveryOptions) : State :=
  update (setRecoveryOptions (Some opts)) identified.

(** Local storage after a login, before one, and with an empty entry. *)
Definition signed_in : gmap string string := {[ "accessToken" := "abc123" ]}.

Definition signed_out : gmap string string := ∅.

Definition empty_entry : gmap string string :=
  {[ "accessToken" := EmptyString ]}.

(** A request as the wizard makes it, before the interceptor. *)
Definition lookup_request : AxiosConfig.RequestConfig Body :=
  {| AxiosConfig.baseURL := "https://api.example.test";
     AxiosConfig.url := "/auth/recovery-options";
     AxiosConfig.method := "post";
     AxiosConfig.data := [("telegramId", JsNumberOf "12345")];
     AxiosConfig.headers := {[ "Accept" := "application/json" ]} |}.

End Examples.

(** ** The controls of the markup and the sessions they allow

    What the user can do with a rendered view, read off the markup: each
    control with its handler, a control with [disabled] set offering
    nothing.  The [required] and [minLength] attributes of the inputs are
    left out, so a form can be submitted more often here than in a
    browser. *)

Module Flow.
Import ForgotPassword.

Inductive UserEvent :=
| change_telegramId (v : string)       (* onChange of the identifier input *)
| submit_checkOptions                  (* onSubmit of the first form *)
| click_useOldPassword
| click_method (m : RecoveryMethod)
| click_cancel
| click_requestCode
| click_changeMethod
| change_code (v : string)
| change_oldPassword (v : string)
| change_newPassword (v : string)
| change_confirmPassword (v : string)
| submit_resetPassword                 (* onSubmit of the last form *)
| click_back.

(** Whether a button of the method list is the one for [m]. *)
Definition button_for (m : RecoveryMethod) (b : MethodButton) : bool :=
  match m, b with
  | method_telegram, telegram_button => true
  | method_email, email_button _ => true
  | _, _ => false
  end.

(** The controls a view offers. *)
Definition offers (v : View) (ev : UserEvent) : bool :=
  match v, ev with
  | EnterTelegramId _ _ _ _, change_telegramId _ => true
  | EnterTelegramId _ _ submitDisabled _, submit_checkOptions =>
      negb submitDisabled
  | EnterTelegramId _ _ _ _, click_useOldPassword => true
  | ChooseMethod _ methods, click_method m => existsb (button_for m) methods
  | ChooseMethod _ _, click_cancel => true
  | SendCode _ _ buttonDisabled _, click_requestCode => negb buttonDisabled
  | SendCode _ _ _ _, click_changeMethod => true
  | EnterCodeAndPassword codeInput _ _ _ _ _ _ _ _, change_code _ =>
      non_null codeInput
  | EnterCodeAndPassword _ oldPasswordInputs _ _ _ _ _ _ _,
    change_telegramId _ => non_null oldPasswordInputs
  | EnterCodeAndPassword _ oldPasswordInputs _ _ _ _ _ _ _,
    change_oldPassword _ => non_null oldPasswordInputs
  | EnterCodeAndPassword _ _ _ _ _ _ _ _ _, change_newPassword _ => true
  | EnterCodeAndPassword _ _ _ _ _ _ _ _ _, change_confirmPassword _ => true
  | EnterCodeAndPassword _ _ _ _ _ _ submitDisabled _ _,
    submit_resetPassword => negb submitDisabled
  | EnterCodeAndPassword _ _ _ _ _ _ _ _ _, click_back => true
  | _, _ => false
  end.

Section Handlers.

Variable translate : string -> list (string * string) -> string.

(** The handler the markup attaches to each control, run on the state of
    the render that shows it.  The two results are the ways the awaited
    request of the handler, if it has one, will settle. *)
Definition reaction (s : State) (ev : UserEvent)
    (options : Settled RecoveryOptions) (result : Settled unit) : Script :=
  match ev with
  | change_telegramId v => [setTelegramId v]
  | submit_checkOptions => handleCheckOptions translate s options
  | click_useOldPassword => onClick_useOldPassword
  | click_method m => onClick_method m
  | click_cancel => resetState
  | click_requestCode => handleRequestCode translate s result
  | click_changeMethod => onClick_changeMethod
  | change_code v => [setCode v]
  | change_oldPassword v => [setOldPassword v]
  | change_newPassword v => [setNewPassword v]
  | change_confirmPassword v => [setConfirmPassword v]
  | submit_resetPassword => handleResetPassword translate s result
  | click_back => onClick_back s
  end.

(** One interaction when no request overlaps another event: the handler
    of an offered control runs to its end. *)
Inductive settled_step : State -> State -> Prop :=
| settled_event s ev options result :
    offers (render translate s) ev = true ->
    settled_step s (apply (reaction s ev options result) s).

(** The component with the requests that have not settled yet, each with
    the actions that will follow it. *)
Record Session := {
  shown : State;
  in_flight : list ((string * Body) * Script)
}.

(** What a handler leaves in flight. *)
Definition awaited (sc : Script) : list ((string * Body) * Script) :=
  match calls sc with
  | [] => []
  | request :: _ => [(request, after_await sc)]
  end.

(** A session moves when the user uses an offered control, whose handler
    runs up to its [await], or when a request in flight settles and the
    rest of its handler runs. *)
Inductive session_step : Session -> Session -> Prop :=
| session_event x ev options result :
    offers (render translate (shown x)) ev = true ->
    session_step x
      {| shown := apply (until_await (reaction (shown x) ev options result))
                        (shown x);
         in_flight := in_flight x
                      ++ awaited (reaction (shown x) ev options result) |}
| session_settle x before request continuation after :
    in_flight x = before ++ (request, continuation) :: after ->
    session_step x
      {| shown := apply continuation (shown x);
         in_flight := before ++ after |}.

End Handlers.

(** The session on mount. *)
Definition mounted : Session := {| shown := initial; in_flight := [] |}.

(** Requests in flight to the options lookup, and to the other endpoints. *)
Definition is_lookup (p : (string * Body) * Script) : bool :=
  String.eqb (fst (fst p)) "/auth/recovery-options".

Definition lookups (x : Session) : list ((string * Body) * Script) :=
  List.filter is_lookup (in_flight x).

Definition submissions (x : Session) : list ((string * Body) * Script) :=
  List.filter (fun p => negb (is_lookup p)) (in_flight x).

(** A continuation that ends the lookup: it clears [optionsLoading] and
    leaves [loading] alone; and one that ends a submission, the other way
    round. *)
Definition ends_lookup (k : Script) : Prop :=
  forall s, optionsLoading (apply k s) = false
            /\ loading (apply k s) = loading s.

Definition ends_submission (k : Script) : Prop :=
  forall s, loading (apply k s) = false
            /\ optionsLoading (apply k s) = optionsLoading s.

(** Each busy flag is set exactly while one request of its kind is in
    flight, and every continuation in flight will clear its flag. *)
Definition flags_track_requests (x : Session) : Prop :=
  Forall (fun p => if is_lookup p then ends_lookup (snd p)
                   else ends_submission (snd p)) (in_flight x)
  /\ length (lookups x) = (if optionsLoading (shown x) then 1 else 0)%nat
  /\ length (submissions x) = (if loading (shown x) then 1 else 0)%nat.

(** The moves between steps that the markup provides for. *)
Definition may_follow (a b : Step) : bool :=
  match a, b with
  | step1, _ => true
  | step2, (step1 | step3) => true
  | step3, (step2 | step3 | step4) => true
  | step4, (step1 | step3 | step4) => true
  | _, _ => false
  end.

(** What holds of the cells between interactions that do not overlap. *)
Definition coherent (s : State) : Prop :=
  (useOldPassword s = true -> recoveryOptions s = None)
  /\ (selectedMethod s <> None -> recoveryOptions s <> None)
  /\ (codeSent s = true -> selectedMethod s <> None)
  /\ loading s = false
  /\ optionsLoading s = false.

(** Actions that leave the five input fields and the old-password flag
    alone. *)
Definition input_free (e : Effect) : bool :=
  match e with
  | setTelegramId _ | setCode _ | setNewPassword _ | setConfirmPassword _
  | setOldPassword _ | setUseOldPassword _ => false
  | _ => true
  end.

(** Two states with the same inputs and the same old-password flag. *)
Definition same_inputs (a b : State) : Prop :=
  telegramId a = telegramId b
  /\ code a = code b
  /\ newPassword a = newPassword b
  /\ confirmPassword a = confirmPassword b
  /\ oldPassword a = oldPassword b
  /\ useOldPassword a = useOldPassword b.

End Flow.

(** ** Sessions used in examples *)

Module FlowExamples.
Import ForgotPassword Flow.

(** The old-password button of the first form has been clicked. *)
Definition on_old_password_path : State :=
  apply onClick_useOldPassword initial.

(** The first form has been submitted and the lookup is in flight. *)
Definition lookup_pending : Session :=
  {| shown := apply (until_await
                       (handleCheckOptions Examples.keys_as_text initial
                          (fulfilled Examples.both_channels)))
                    initial;
     in_flight := awaited (handleCheckOptions Examples.keys_as_text initial
                             (fulfilled Examples.both_channels)) |}.

(** A browser in which a successful reset has registered its timer, and
    the same browser once the timer has run. *)
Definition reset_done : World :=
  run 150 (handleResetPassword Examples.keys_as_text Examples.well_filled
             (fulfilled tt))
      (Examples.quiet Examples.well_filled).

Definition at_login : World :=
  {| component := component reset_done; clock := 2150; timers := [];
     navigations := [(2150%N, "/login")]; requests := requests reset_done |}.

(** The last form filled in with five accented letters, confirmed: ten
    bytes of UTF-8, five code units. *)
Definition short_with_accents : State :=
  apply [setNewPassword "ééééé"; setConfirmPassword "ééééé"]
        Examples.short_and_mismatched.

(** A fulfilled lookup that reports the email channel only, then a
    fulfilled code request. *)
Definition email_selected : State :=
  apply (reaction Examples.keys_as_text initial submit_checkOptions
           (fulfilled Examples.only_email) (fulfilled tt))
        initial.

Definition code_sent_by_email : State :=
  apply (reaction Examples.keys_as_text email_selected click_requestCode
           (fulfilled Examples.only_email) (fulfilled tt))
        email_selected.

End FlowExamples.

(** ** Properties of the wizard *)

Import ForgotPassword Wizard.

Lemma eqb_differs (a b : string) : a <> b -> String.eqb a b = false.
Proof. intros H. apply String.eqb_neq. exact H. Qed.

Section Validation.

Variable translate : string -> list (string * string) -> string.

(** A submission whose passwords differ performs exactly these actions. *)
Lemma handleResetPassword_mismatch (s : State) (result : Settled unit) :
  newPassword s <> confirmPassword s ->
  handleResetPassword translate s result
  = [preventDefault; setError EmptyString; setSuccess EmptyString;
     setError (t translate "forgotPassword.errors.mismatch")].
Proof.
  intros H. unfold handleResetPassword.
  rewrite (eqb_differs _ _ H). reflexivity.
Qed.

(** A submission whose passwords agree but are short performs exactly
    these actions. *)
Lemma handleResetPassword_tooShort (s : State) (result : Settled unit) :
  newPassword s = confirmPassword s ->
  (js_length (newPassword s) < 6)%nat ->
  handleResetPassword translate s result
  = [preventDefault; setError EmptyString; setSuccess EmptyString;
     setError (t translate "forgotPassword.errors.tooShort")].
Proof.
  intros Heq Hlen. unfold handleResetPassword.
  rewrite Heq, String.eqb_refl. rewrite <- Heq.
  destruct (Nat.ltb_spec (js_length (newPassword s)) 6) as [_|Hge];
    [reflexivity | lia].
Qed.

(** A submission that passes both checks performs exactly these actions. *)
Lemma handleResetPassword_valid (s : State) (result : Settled unit) :
  newPassword s = confirmPassword s ->
  (6 <= js_length (newPassword s))%nat ->
  handleResetPassword translate s result
  = [preventDefault; setError EmptyString; setSuccess EmptyString;
     setLoading true;
     if useOldPassword s then
       post "/auth/reset-password-with-old"
            [("telegramId", JsNumberOf (telegramId s));
             ("oldPassword", JsString (oldPassword s));
             ("newPassword", JsString (newPassword s))]
     else
       post "/auth/reset-password"
            [("telegramId", JsNumberOf (telegramId s));
             ("code", JsString (code s));
             ("newPassword", JsString (newPassword s))]]
    ++ match result with
       | fulfilled _ =>
           [setSuccess (t translate "forgotPassword.passwordReset");
            setTimeout (navigate_to "/login") 2000]
       | rejected err =>
           [setError (or_else (response_data_error err)
                        (t translate "forgotPassword.errors.resetFailed"))]
       end
    ++ [setLoading false].
Proof.
  intros Heq Hlen. unfold handleResetPassword.
  rewrite Heq, String.eqb_refl. rewrite <- Heq.
  destruct (Nat.ltb_spec (js_length (newPassword s)) 6) as [Hlt|_];
    [lia | reflexivity].
Qed.

(** C1 (as amended): a submission whose new password has fewer than 6
    characters, counted as [.length] counts them (UTF-16 code units),
    issues no network call and ends with the error cell holding a
    validation message: the too-short message when the confirmation equals
    the new password, the mismatch message when it differs. *)
Theorem C1_short_password_is_blocked (s current : State)
    (result : Settled unit) :
  (js_length (newPassword s) < 6)%nat ->
  calls (handleResetPassword translate s result) = []
  /\ after_await (handleResetPassword translate s result) = []
  /\ loading (apply (handleResetPassword translate s result) current)
     = loading current
  /\ error (apply (handleResetPassword translate s result) current)
     = if String.eqb (newPassword s) (confirmPassword s)
       then t translate "forgotPassword.errors.tooShort"
       else t translate "forgotPassword.errors.mismatch".
Proof.
  intros Hlen.
  destruct (String.eqb_spec (newPassword s) (confirmPassword s)) as [Heq|Hne].
  - rewrite (handleResetPassword_tooShort s result Heq Hlen).
    destruct current; repeat split.
  - rewrite (handleResetPassword_mismatch s result Hne).
    destruct current; repeat split.
Qed.

(** C2: a submission whose new password differs from the confirmation
    sets the error cell to the mismatch message and returns without a
    call to either reset endpoint (or to any other). *)
Theorem C2_mismatch_is_blocked (s current : State) (result : Settled unit) :
  newPassword s <> confirmPassword s ->
  calls (handleResetPassword translate s result) = []
  /\ after_await (handleResetPassword translate s result) = []
  /\ error (apply (handleResetPassword translate s result) current)
     = t translate "forgotPassword.errors.mismatch".
Proof.
  intros Hne. rewrite (handleResetPassword_mismatch s result Hne).
  destruct current; repeat split.
Qed.

End Validation.

(** C1 as the specification words it fails: with a short password and a
    different confirmation the handler reports the mismatch, not the
    length. *)
Lemma C1_short_but_mismatch_reported :
  (js_length (newPassword Examples.short_and_mismatched) < 6)%nat
  /\ error (apply (handleResetPassword Examples.keys_as_text
                     Examples.short_and_mismatched (fulfilled tt))
                  Examples.short_and_mismatched)
     = "forgotPassword.errors.mismatch"
  /\ error (apply (handleResetPassword Examples.keys_as_text
                     Examples.short_and_mismatched (fulfilled tt))
                  Examples.short_and_mismatched)
     <> t Examples.keys_as_text "forgotPassword.errors.tooShort".
Proof.
  split; [vm_compute; lia|].
  split; [reflexivity|].
  vm_compute. discriminate.
Qed.

Lemma C1_short_password_witness :
  (js_length (newPassword Examples.short_and_confirmed) < 6)%nat
  /\ calls (handleResetPassword Examples.keys_as_text
              Examples.short_and_confirmed (fulfilled tt)) = []
  /\ error (apply (handleResetPassword Examples.keys_as_text
                     Examples.short_and_confirmed (fulfilled tt))
                  Examples.short_and_confirmed)
     = "forgotPassword.errors.tooShort"
  /\ (js_length (newPassword FlowExamples.short_with_accents) < 6)%nat
  /\ calls (handleResetPassword Examples.keys_as_text
              FlowExamples.short_with_accents (fulfilled tt)) = []
  /\ error (apply (handleResetPassword Examples.keys_as_text
                     FlowExamples.short_with_accents (fulfilled tt))
                  FlowExamples.short_with_accents)
     = "forgotPassword.errors.tooShort".
Proof.
  assert (H : (js_length (newPassword Examples.short_and_confirmed) < 6)%nat)
    by (vm_compute; lia).
  assert (H' : (js_length (newPassword FlowExamples.short_with_accents) < 6)%nat)
    by (vm_compute; lia).
  destruct (C1_short_password_is_blocked Examples.keys_as_text
              Examples.short_and_confirmed Examples.short_and_confirmed
              (fulfilled tt) H) as (Hcalls & _ & _ & Herr).
  destruct (C1_short_password_is_blocked Examples.keys_as_text
              FlowExamples.short_with_accents FlowExamples.short_with_accents
              (fulfilled tt) H') as (Hcalls' & _ & _ & Herr').
  repeat split; assumption.
Defined.

Lemma C2_mismatch_witness :
  newPassword Examples.short_and_mismatched
    <> confirmPassword Examples.short_and_mismatched
  /\ calls (handleResetPassword Examples.keys_as_text
              Examples.short_and_mismatched (fulfilled tt)) = []
  /\ error (apply (handleResetPassword Examples.keys_as_text
                     Examples.short_and_mismatched (fulfilled tt))
                  Examples.short_and_mismatched)
     = "forgotPassword.errors.mismatch".
Proof.
  assert (H : newPassword Examples.short_and_mismatched
              <> confirmPassword Examples.short_and_mismatched)
    by (vm_compute; discriminate).
  split; [exact H|].
  destruct (C2_mismatch_is_blocked Examples.keys_as_text
              Examples.short_and_mismatched Examples.short_and_mismatched
              (fulfilled tt) H) as (Hcalls & _ & Herr).
  split; [exact Hcalls | exact Herr].
Defined.

(** ** Steps of the wizard *)

(** Replaying status-only actions leaves the step cells and the inputs as
    they were. *)
Lemma status_only_frame (sc : Script) (s : State) :
  forallb status_only sc = true -> same_wizard_state (apply sc s) s.
Proof.
  revert s. induction sc as [|e sc IH]; intros s Hall.
  - repeat split.
  - simpl in Hall. apply andb_prop in Hall as [He Hsc].
    simpl. specialize (IH (update e s) Hsc).
    assert (Hu : same_wizard_state (update e s) s)
      by (destruct e; try discriminate He; destruct s; repeat split).
    unfold same_wizard_state in *.
    destruct IH as (I1 & I2 & I3 & I4 & I5 & I6 & I7 & I8 & I9).
    destruct Hu as (U1 & U2 & U3 & U4 & U5 & U6 & U7 & U8 & U9).
    repeat split; congruence.
Qed.

Section Rendering.

Variable translate : string -> list (string * string) -> string.

(** The step that is rendered depends on four cells only. *)
Lemma render_step (s : State) :
  step_of (render translate s)
  = match recoveryOptions s, selectedMethod s with
    | None, _ => if useOldPassword s then step4 else step1
    | Some _, None => step2
    | Some _, Some _ => if codeSent s then step4 else step3
    end.
Proof.
  unfold render.
  destruct (recoveryOptions s), (selectedMethod s), (useOldPassword s),
    (codeSent s); reflexivity.
Qed.

Lemma same_wizard_state_step (a b : State) :
  same_wizard_state a b ->
  step_of (render translate a) = step_of (render translate b).
Proof.
  intros (H1 & H2 & H3 & H4 & _). rewrite !render_step.
  rewrite H1, H2, H3, H4. reflexivity.
Qed.

(** Every step but the method selection shows the error cell, when it is
    not empty. *)
Lemma error_box_shows_error_cell (s : State) :
  step_of (render translate s) <> step2 ->
  error_shown (render translate s) = box (error s).
Proof.
  unfold render.
  destruct (recoveryOptions s), (selectedMethod s), (useOldPassword s),
    (codeSent s); simpl; intros H; try reflexivity; contradiction.
Qed.

(** [a || b] on strings. *)
Lemma or_else_truthy (message fallback : string) :
  message <> EmptyString -> or_else (Some message) fallback = message.
Proof.
  intros H. unfold or_else, truthy. rewrite (eqb_differs _ _ H). reflexivity.
Qed.

Lemma or_else_falsy (a : option string) (fallback : string) :
  a = None \/ a = Some EmptyString -> or_else a fallback = fallback.
Proof. intros [->| ->]; reflexivity. Qed.

(** With the old-password flag set and no recovery options loaded, the
    last form is rendered. *)
Lemma old_password_form_direct (s : State) :
  useOldPassword s = true -> recoveryOptions s = None ->
  step_of (render translate s) = step4.
Proof. intros Hold Hopts. rewrite render_step, Hopts, Hold. reflexivity. Qed.

(** With the old-password flag set, a submission that passes the checks
    calls the with-old endpoint and nothing else. *)
Lemma old_password_submission (s : State) (result : Settled unit) :
  useOldPassword s = true ->
  newPassword s = confirmPassword s ->
  (6 <= js_length (newPassword s))%nat ->
  calls (handleResetPassword translate s result)
  = [("/auth/reset-password-with-old",
      [("telegramId", JsNumberOf (telegramId s));
       ("oldPassword", JsString (oldPassword s));
       ("newPassword", JsString (newPassword s))])].
Proof.
  intros Hold Heq Hlen.
  rewrite (handleResetPassword_valid translate s result Heq Hlen), Hold.
  destruct result; reflexivity.
Qed.

(** C3: when a recovery-options response has exactly one of its two flags
    set, [handleCheckOptions] stores the response, selects that channel,
    and the view rendered from the resulting state is not the
    method-selection step. *)
Theorem C3_single_channel_is_selected (s current : State)
    (opts : RecoveryOptions) :
  (telegram opts = true /\ email opts = false)
  \/ (telegram opts = false /\ email opts = true) ->
  recoveryOptions
    (apply (handleCheckOptions translate s (fulfilled opts)) current)
  = Some opts
  /\ selectedMethod
       (apply (handleCheckOptions translate s (fulfilled opts)) current)
     = Some (if telegram opts then method_telegram else method_email)
  /\ step_of (render translate
                (apply (handleCheckOptions translate s (fulfilled opts))
                       current))
     <> step2.
Proof.
  intros Hone.
  assert (Hcells :
    recoveryOptions
      (apply (handleCheckOptions translate s (fulfilled opts)) current)
    = Some opts
    /\ selectedMethod
         (apply (handleCheckOptions translate s (fulfilled opts)) current)
       = Some (if telegram opts then method_telegram else method_email)).
  { unfold handleCheckOptions.
    destruct Hone as [[Ht He]|[Ht He]]; rewrite Ht, He;
      destruct current; split; reflexivity. }
  destruct Hcells as [Hopts Hsel].
  split; [exact Hopts|]. split; [exact Hsel|].
  rewrite render_step, Hopts, Hsel.
  destruct (codeSent _); discriminate.
Qed.

(** C6: when the request of [handleCheckOptions], [handleRequestCode] or
    [handleResetPassword] is rejected, the handler changes none of
    [recoveryOptions], [selectedMethod], [codeSent], [useOldPassword] and
    the input fields, and the step rendered afterwards is the step
    rendered before. *)
Theorem C6_rejection_keeps_the_step (s current : State) (e : AxiosError) :
  (same_wizard_state
     (apply (handleCheckOptions translate s (rejected e)) current) current
   /\ step_of (render translate
                 (apply (handleCheckOptions translate s (rejected e)) current))
      = step_of (render translate current))
  /\ (same_wizard_state
        (apply (handleRequestCode translate s (rejected e)) current) current
      /\ step_of (render translate
                    (apply (handleRequestCode translate s (rejected e))
                           current))
         = step_of (render translate current))
  /\ (same_wizard_state
        (apply (handleResetPassword translate s (rejected e)) current) current
      /\ step_of (render translate
                    (apply (handleResetPassword translate s (rejected e))
                           current))
         = step_of (render translate current)).
Proof.
  assert (H1 : forallb status_only
                 (handleCheckOptions translate s (rejected e)) = true)
    by reflexivity.
  assert (H2 : forallb status_only
                 (handleRequestCode translate s (rejected e)) = true)
    by reflexivity.
  assert (H3 : forallb status_only
                 (handleResetPassword translate s (rejected e)) = true).
  { unfold handleResetPassword.
    destruct (negb _); [reflexivity|].
    destruct (_ <? _)%nat; [reflexivity|].
    destruct (useOldPassword s); reflexivity. }
  repeat split;
    try (apply same_wizard_state_step);
    first [ apply (status_only_frame _ current H1)
          | apply (status_only_frame _ current H2)
          | apply (status_only_frame _ current H3) ].
Qed.

(** What the three handlers do when their request is rejected: status
    actions only, the last write to the error cell being the [||] of the
    response's error field and the reset-failed message. *)
Lemma rejected_handler (s1 s2 s3 current : State) (e : AxiosError)
    (sc : Script) :
  newPassword s3 = confirmPassword s3 ->
  (6 <= js_length (newPassword s3))%nat ->
  In sc [handleCheckOptions translate s1 (rejected e);
         handleRequestCode translate s2 (rejected e);
         handleResetPassword translate s3 (rejected e)] ->
  forallb status_only sc = true
  /\ error (apply sc current)
     = or_else (response_data_error e)
               (t translate "forgotPassword.errors.resetFailed").
Proof.
  intros Heq Hlen Hin.
  rewrite (handleResetPassword_valid translate s3 (rejected e) Heq Hlen)
    in Hin.
  destruct Hin as [<-|[<-|[<-|[]]]];
    destruct current; try destruct (useOldPassword s3); split; reflexivity.
Qed.

(** C7: after a rejected request of any of the three handlers, the error
    cell, and the error box of every step that has one (all but the method
    list), hold the [error] field of the response body when that field is
    present and not empty, and the localized reset-failed message when the
    field is absent or empty.  ([handleResetPassword] issues a request only
    for a submission that passes its checks.) *)
Theorem C7_rejection_message (s1 s2 s3 current : State) (e : AxiosError)
    (sc : Script) :
  newPassword s3 = confirmPassword s3 ->
  (6 <= js_length (newPassword s3))%nat ->
  In sc [handleCheckOptions translate s1 (rejected e);
         handleRequestCode translate s2 (rejected e);
         handleResetPassword translate s3 (rejected e)] ->
  (forall message,
     response_data_error e = Some message ->
     message <> EmptyString ->
     error (apply sc current) = message
     /\ (step_of (render translate current) <> step2 ->
         error_shown (render translate (apply sc current)) = Some message))
  /\ (response_data_error e = None
      \/ response_data_error e = Some EmptyString ->
      error (apply sc current)
      = t translate "forgotPassword.errors.resetFailed"
      /\ (step_of (render translate current) <> step2 ->
          error_shown (render translate (apply sc current))
          = box (t translate "forgotPassword.errors.resetFailed"))).
Proof.
  intros Heq Hlen Hin.
  destruct (rejected_handler s1 s2 s3 current e sc Heq Hlen Hin)
    as [Hstatus Herr].
  pose proof (same_wizard_state_step _ _
                (status_only_frame sc current Hstatus)) as Hstep.
  split.
  - intros message Hfield Hne.
    rewrite Hfield, (or_else_truthy _ _ Hne) in Herr.
    split; [exact Herr|]. intros Hshown.
    rewrite error_box_shows_error_cell by (rewrite Hstep; exact Hshown).
    rewrite Herr. unfold box, truthy.
    rewrite (eqb_differs _ _ Hne). reflexivity.
  - intros Hfield. rewrite (or_else_falsy _ _ Hfield) in Herr.
    split; [exact Herr|]. intros Hshown.
    rewrite error_box_shows_error_cell by (rewrite Hstep; exact Hshown).
    rewrite Herr. reflexivity.
Qed.

(** C9: whenever the method-selection step is rendered, its list of
    buttons contains the Telegram button, whatever the [telegram] flag of
    the response, and contains an email button exactly when the [email]
    flag is set. *)
Theorem C9_telegram_button_unconditional (s : State)
    (opts : RecoveryOptions) :
  recoveryOptions s = Some opts ->
  selectedMethod s = None ->
  step_of (render translate s) = step2
  /\ In telegram_button (methods_of (render translate s))
  /\ ((exists hint, In (email_button hint) (methods_of (render translate s)))
      <-> email opts = true).
Proof.
  intros Hopts Hsel. unfold render. rewrite Hopts, Hsel. simpl.
  split; [reflexivity|]. split; [left; reflexivity|].
  destruct (email opts); split.
  - reflexivity.
  - intros _. eexists. right. left. reflexivity.
  - intros [hint [Habs|[]]]; discriminate Habs.
  - discriminate.
Qed.

(** C10: [resetState] clears [recoveryOptions], [selectedMethod],
    [codeSent], [code], [error] and [success], and leaves every other cell
    as it was, [telegramId], [newPassword], [confirmPassword] and
    [oldPassword] among them; unless the old-password flag is set, the
    first form is rendered next, with the identifier still in its field. *)
Theorem C10_resetState_frame (s : State) :
  (recoveryOptions (apply resetState s) = None
   /\ selectedMethod (apply resetState s) = None
   /\ codeSent (apply resetState s) = false
   /\ code (apply resetState s) = EmptyString
   /\ error (apply resetState s) = EmptyString
   /\ success (apply resetState s) = EmptyString)
  /\ (telegramId (apply resetState s) = telegramId s
      /\ newPassword (apply resetState s) = newPassword s
      /\ confirmPassword (apply resetState s) = confirmPassword s
      /\ oldPassword (apply resetState s) = oldPassword s
      /\ useOldPassword (apply resetState s) = useOldPassword s
      /\ loading (apply resetState s) = loading s
      /\ optionsLoading (apply resetState s) = optionsLoading s)
  /\ render translate (apply resetState s)
     = if useOldPassword s
       then view_step4 translate (apply resetState s)
       else EnterTelegramId (telegramId s) None (optionsLoading s)
              (if optionsLoading s then t translate "common.loading"
               else t translate "forgotPassword.continue").
Proof.
  destruct s as [a1 a2 a3 a4 a5 a6 a7 a8 a9 a10 a11 a12 a13].
  repeat split. destruct a10; reflexivity.
Qed.

End Rendering.

(** ** The old-password path and a lookup in flight *)

(** C4 at a concrete run: the first form is submitted with identifier
    12345; while the lookup is in flight (the first form is still shown)
    the old-password button is clicked and the last form appears; the
    lookup then settles.  With both channels reported the method-selection
    step is rendered although [useOldPassword] is still set; with one
    channel reported the send-code step is rendered, whose button calls the
    code-request endpoint. *)
Theorem C4_old_password_path_left_by_late_lookup :
  step_of (render Examples.keys_as_text Examples.lookup_in_flight) = step1
  /\ calls (until_await (Examples.lookup Examples.both_channels))
     = [("/auth/recovery-options", [("telegramId", JsNumberOf "12345")])]
  /\ useOldPassword Examples.old_password_chosen = true
  /\ step_of (render Examples.keys_as_text Examples.old_password_chosen)
     = step4
  /\ useOldPassword (Examples.lookup_settled Examples.both_channels) = true
  /\ step_of (render Examples.keys_as_text
                (Examples.lookup_settled Examples.both_channels))
     = step2
  /\ useOldPassword (Examples.lookup_settled Examples.only_email) = true
  /\ step_of (render Examples.keys_as_text
                (Examples.lookup_settled Examples.only_email))
     = step3
  /\ calls (handleRequestCode Examples.keys_as_text
              (Examples.lookup_settled Examples.only_email) (fulfilled tt))
     = [("/auth/forgot-password",
         [("telegramId", JsNumberOf "12345"); ("method", JsString "email")])].
Proof. repeat split. Qed.

(** ** Timers and navigation *)

Lemma accounted_for_refl (w : World) : accounted_for w w.
Proof. split; [auto | intros tm path H; left; exact H]. Qed.

Lemma loop_step_accounted (w w' : World) :
  loop_step w w' -> accounted_for w w'.
Proof.
  intros Hstep. destruct Hstep as [w d | w due cb before after Htimers Hdue].
  - apply (accounted_for_refl w).
  - destruct cb as [path]. split; simpl.
    + intros x Hx. rewrite Htimers. apply in_app_iff.
      apply in_app_iff in Hx as [Hx|Hx]; [left; exact Hx|].
      right. right. exact Hx.
    + intros tm p [Hnew|Hold]; [|left; exact Hold].
      injection Hnew as Htm Hp. subst tm p. right. exists due.
      split; [|exact Hdue].
      rewrite Htimers. apply in_app_iff. right. left. reflexivity.
Qed.

Lemma accounted_for_trans (w0 w1 w2 : World) :
  accounted_for w0 w1 -> accounted_for w1 w2 -> accounted_for w0 w2.
Proof.
  intros [T01 N01] [T12 N12]. split.
  - intros x Hx. apply T01, T12, Hx.
  - intros tm path Hin.
    destruct (N12 tm path Hin) as [Hold|(due & Hdue & Hle)].
    + apply N01, Hold.
    + right. exists due. split; [apply T01, Hdue | exact Hle].
Qed.

(** However the event loop runs, navigation comes from pending timers
    only, each no earlier than its due time. *)
Lemma loop_accounted (w0 w : World) :
  rtc loop_step w0 w -> accounted_for w0 w.
Proof.
  induction 1 as [w|w0 w1 w2 Hstep _ IH].
  - apply accounted_for_refl.
  - apply (accounted_for_trans w0 w1 w2);
      [apply loop_step_accounted, Hstep | exact IH].
Qed.

Section Navigation.

Variable translate : string -> list (string * string) -> string.

(** C5: for a submission that passes the checks and whose request
    succeeds, the actions after the request are: set the success message,
    register the navigation to the login view with a delay of 2000 ms,
    clear the busy flag.  The handler itself does not navigate; whatever
    the event loop does afterwards, a navigation that was not already
    recorded or pending before the submission goes to the login view and
    happens 2000 ms or more after the success message was set; and it can
    happen at exactly that time. *)
Theorem C5_navigation_after_delay (s : State) (latency : N) (w0 : World) :
  newPassword s = confirmPassword s ->
  (6 <= js_length (newPassword s))%nat ->
  after_await (handleResetPassword translate s (fulfilled tt))
  = [setSuccess (t translate "forgotPassword.passwordReset");
     setTimeout (navigate_to "/login") 2000;
     setLoading false]
  /\ success (component
                (run latency (handleResetPassword translate s (fulfilled tt))
                     w0))
     = t translate "forgotPassword.passwordReset"
  /\ navigations
       (run latency (handleResetPassword translate s (fulfilled tt)) w0)
     = navigations w0
  /\ timers (run latency (handleResetPassword translate s (fulfilled tt)) w0)
     = ((clock w0 + latency + 2000)%N, navigate_to "/login") :: timers w0
  /\ (forall w,
        rtc loop_step
            (run latency (handleResetPassword translate s (fulfilled tt)) w0)
            w ->
        forall tm path, In (tm, path) (navigations w) ->
          In (tm, path) (navigations w0)
          \/ (exists due, In (due, navigate_to path) (timers w0)
                          /\ (due <= tm)%N)
          \/ (path = "/login" /\ (clock w0 + latency + 2000 <= tm)%N))
  /\ (exists w,
        rtc loop_step
            (run latency (handleResetPassword translate s (fulfilled tt)) w0)
            w
        /\ navigations w
           = ((clock w0 + latency + 2000)%N, "/login") :: navigations w0).
Proof.
  intros Heq Hlen.
  rewrite (handleResetPassword_valid translate s (fulfilled tt) Heq Hlen).
  set (req := if useOldPassword s then _ else _).
  assert (Hreq : exists url body, req = post url body)
    by (subst req; destruct (useOldPassword s); eauto).
  destruct Hreq as (url & body & ->).
  destruct w0 as [[c1 c2 c3 c4 c5 c6 c7 c8 c9 c10 c11 c12 c13] now tms navs reqs].
  cbn [app after_await run perform update component clock timers
       navigations requests success].
  split; [reflexivity|]. split; [reflexivity|]. split; [reflexivity|].
  split; [reflexivity|]. split.
  - intros w Hrun tm path Hin.
    apply loop_accounted in Hrun as [_ Hnav].
    destruct (Hnav tm path Hin) as [Hold|(due & Hdue & Hle)];
      [left; exact Hold|].
    cbn [timers] in Hdue. destruct Hdue as [Hnew|Hpending].
    + injection Hnew as Hd Hp. subst due path. right. right.
      split; [reflexivity | exact Hle].
    + right. left. exists due. split; [exact Hpending | exact Hle].
  - eexists. split.
    + eapply rtc_l; [apply (loop_tick _ 2000)|].
      eapply rtc_l; [|apply rtc_refl].
      apply (loop_fire _ (now + latency + 2000)%N (navigate_to "/login")
                       [] tms); [reflexivity | cbn [clock]; lia].
    + reflexivity.
Qed.

End Navigation.

(** ** Concrete instances *)

Lemma C3_single_channel_witness :
  selectedMethod
    (apply (handleCheckOptions Examples.keys_as_text Examples.identified
              (fulfilled Examples.only_email))
           Examples.identified)
  = Some method_email
  /\ step_of (render Examples.keys_as_text
                (apply (handleCheckOptions Examples.keys_as_text
                          Examples.identified (fulfilled Examples.only_email))
                       Examples.identified))
     <> step2.
Proof.
  destruct (C3_single_channel_is_selected Examples.keys_as_text
              Examples.identified Examples.identified Examples.only_email)
    as (_ & Hsel & Hstep).
  - right. split; reflexivity.
  - split; [exact Hsel | exact Hstep].
Defined.

Lemma C5_navigation_witness :
  timers (run 150 (handleResetPassword Examples.keys_as_text
                     Examples.well_filled (fulfilled tt))
              (Examples.quiet Examples.well_filled))
  = [(2150%N, navigate_to "/login")]
  /\ (forall w,
        rtc loop_step
            (run 150 (handleResetPassword Examples.keys_as_text
                        Examples.well_filled (fulfilled tt))
                 (Examples.quiet Examples.well_filled))
            w ->
        forall tm path, In (tm, path) (navigations w) ->
          path = "/login" /\ (2150 <= tm)%N).
Proof.
  assert (Heq : newPassword Examples.well_filled
                = confirmPassword Examples.well_filled) by reflexivity.
  assert (Hlen : (6 <= js_length (newPassword Examples.well_filled))%nat)
    by (vm_compute; lia).
  destruct (C5_navigation_after_delay Examples.keys_as_text
              Examples.well_filled 150 (Examples.quiet Examples.well_filled)
              Heq Hlen) as (_ & _ & _ & Htimers & Hafter & _).
  split; [exact Htimers|].
  intros w Hrun tm path Hin.
  destruct (Hafter w Hrun tm path Hin) as [[]|[(due & [] & _)|[Hp Hle]]].
  split; [exact Hp | exact Hle].
Defined.

Lemma C7_rejection_witness :
  error_shown
    (render Examples.keys_as_text
       (apply (handleResetPassword Examples.keys_as_text Examples.well_filled
                 (rejected (Examples.server_says "Invalid code")))
              Examples.well_filled))
  = Some "Invalid code"
  /\ error_shown
       (render Examples.keys_as_text
          (apply (handleResetPassword Examples.keys_as_text
                    Examples.well_filled
                    (rejected (Examples.server_says EmptyString)))
                 Examples.well_filled))
     = Some "forgotPassword.errors.resetFailed"
  /\ error (apply (handleCheckOptions Examples.keys_as_text
                     Examples.identified (rejected Examples.network_down))
                  Examples.identified)
     = "forgotPassword.errors.resetFailed".
Proof.
  assert (Heq : newPassword Examples.well_filled
                = confirmPassword Examples.well_filled) by reflexivity.
  assert (Hlen : (6 <= js_length (newPassword Examples.well_filled))%nat)
    by (vm_compute; lia).
  split; [|split].
  - apply (C7_rejection_message Examples.keys_as_text Examples.identified
             Examples.identified Examples.well_filled Examples.well_filled
             (Examples.server_says "Invalid code")
             (handleResetPassword Examples.keys_as_text Examples.well_filled
                (rejected (Examples.server_says "Invalid code")))
             Heq Hlen).
    + right. right. left. reflexivity.
    + reflexivity.
    + discriminate.
    + discriminate.
  - apply (C7_rejection_message Examples.keys_as_text Examples.identified
             Examples.identified Examples.well_filled Examples.well_filled
             (Examples.server_says EmptyString)
             (handleResetPassword Examples.keys_as_text Examples.well_filled
                (rejected (Examples.server_says EmptyString)))
             Heq Hlen).
    + right. right. left. reflexivity.
    + right. reflexivity.
    + discriminate.
  - apply (C7_rejection_message Examples.keys_as_text Examples.identified
             Examples.identified Examples.well_filled Examples.identified
             Examples.network_down
             (handleCheckOptions Examples.keys_as_text Examples.identified
                (rejected Examples.network_down))
             Heq Hlen).
    + left. reflexivity.
    + left. reflexivity.
Defined.

Lemma C9_telegram_button_witness :
  telegram Examples.only_email = false
  /\ In telegram_button
        (methods_of (render Examples.keys_as_text
                       (Examples.choosing Examples.only_email))).
Proof.
  split; [reflexivity|].
  apply (C9_telegram_button_unconditional Examples.keys_as_text
           (Examples.choosing Examples.only_email) Examples.only_email);
    reflexivity.
Defined.

(** ** Properties of the HTTP client *)

Section Interceptor.

Import AxiosConfig.

Context {D : Type}.

(** X18: the interceptor touches the authorization header at most: every
    other header and every other field of the request is as it was. *)
Lemma request_interceptor_frame (localStorage : gmap string string)
    (config : RequestConfig D) (name : string) :
  name <> "Authorization" ->
  headers (request_interceptor localStorage config) !! name
  = headers config !! name
  /\ baseURL (request_interceptor localStorage config) = baseURL config
  /\ url (request_interceptor localStorage config) = url config
  /\ method (request_interceptor localStorage config) = method config
  /\ data (request_interceptor localStorage config) = data config.
Proof.
  intros Hname. unfold request_interceptor.
  destruct (getItem localStorage "accessToken") as [token|];
    [destruct (truthy token)|]; simpl; repeat split.
  apply lookup_insert_ne. congruence.
Qed.

(** C8: when local storage holds a non-empty value under [accessToken],
    the request leaves the interceptor with its [Authorization] header
    equal to [Bearer ] followed by that value; when it holds no such value
    (no entry, or an empty one) the interceptor returns the request as it
    received it. *)
Theorem C8_bearer_token_attached (localStorage : gmap string string)
    (config : RequestConfig D) :
  (forall token,
     getItem localStorage "accessToken" = Some token ->
     token <> EmptyString ->
     headers (request_interceptor localStorage config) !! "Authorization"
     = Some (String.append "Bearer " token))
  /\ ((forall token,
         getItem localStorage "accessToken" = Some token ->
         token = EmptyString) ->
      request_interceptor localStorage config = config).
Proof.
  unfold request_interceptor. split.
  - intros token Hget Hne. rewrite Hget.
    unfold truthy. rewrite (eqb_differs _ _ Hne). simpl.
    apply lookup_insert_eq.
  - intros Hempty.
    destruct (getItem localStorage "accessToken") as [token|];
      [|reflexivity].
    rewrite (Hempty token eq_refl). reflexivity.
Qed.

End Interceptor.

Lemma C8_bearer_token_witness :
  AxiosConfig.headers
    (AxiosConfig.request_interceptor Examples.signed_in
       Examples.lookup_request) !! "Authorization"
  = Some "Bearer abc123"
  /\ AxiosConfig.request_interceptor Examples.signed_out
       Examples.lookup_request
     = Examples.lookup_request
  /\ AxiosConfig.request_interceptor Examples.empty_entry
       Examples.lookup_request
     = Examples.lookup_request.
Proof.
  split; [|split].
  - apply (proj1 (C8_bearer_token_attached Examples.signed_in
                    Examples.lookup_request) "abc123");
      [reflexivity | discriminate].
  - apply (proj2 (C8_bearer_token_attached Examples.signed_out
                    Examples.lookup_request)).
    intros token Hget. discriminate Hget.
  - apply (proj2 (C8_bearer_token_attached Examples.empty_entry
                    Examples.lookup_request)).
    intros token Hget. injection Hget as <-. reflexivity.
Defined.

(** ** Further properties of the handlers *)

Section Handlers.

Variable translate : string -> list (string * string) -> string.

(** X1: whatever the outcome, [handleCheckOptions] and [handleRequestCode]
    issue exactly one request each; it carries the identifier (and the
    method) of the render the handler belongs to. *)
Theorem X1_one_request_per_handler (s : State)
    (options : Settled RecoveryOptions) (result : Settled unit) :
  calls (handleCheckOptions translate s options)
  = [("/auth/recovery-options", [("telegramId", JsNumberOf (telegramId s))])]
  /\ calls (handleRequestCode translate s result)
     = [("/auth/forgot-password",
         [("telegramId", JsNumberOf (telegramId s));
          ("method", method_value (selectedMethod s))])].
Proof.
  split.
  - destruct options as [opts|e]; [|reflexivity].
    unfold handleCheckOptions.
    destruct (telegram opts), (email opts); reflexivity.
  - destruct result; reflexivity.
Qed.

(** X2: when a lookup reports both channels, or neither, no method is
    selected for the user: with none selected before, the method list is
    rendered next, the Telegram button first and the email button, labelled
    with the masked address, only if the email channel was reported. *)
Theorem X2_lookup_without_single_channel (s current : State)
    (opts : RecoveryOptions) :
  telegram opts = email opts ->
  selectedMethod current = None ->
  selectedMethod
    (apply (handleCheckOptions translate s (fulfilled opts)) current) = None
  /\ render translate
       (apply (handleCheckOptions translate s (fulfilled opts)) current)
     = ChooseMethod (t translate "forgotPassword.chooseMethod")
         (telegram_button
          :: (if email opts
              then [email_button (or_else (emailMasked opts) EmptyString)]
              else [])).
Proof.
  intros Hflags Hsel. unfold handleCheckOptions.
  destruct opts as [tg em masked]. simpl in Hflags. subst tg.
  destruct current as [a1 a2 a3 a4 a5 a6 a7 a8 a9 a10 a11 a12 a13].
  simpl in Hsel. subst a12.
  destruct em; split; reflexivity.
Qed.

(** X3: when the code request succeeds, [codeSent] is set, the error is
    empty, the busy flag is cleared and the success message is the one of
    the channel (the email text for email, the other text otherwise); the
    send-code step is followed by the last form. *)
Theorem X3_code_request_success (s current : State) :
  step_of (render translate current) = step3 ->
  codeSent (apply (handleRequestCode translate s (fulfilled tt)) current)
  = true
  /\ error (apply (handleRequestCode translate s (fulfilled tt)) current)
     = EmptyString
  /\ loading (apply (handleRequestCode translate s (fulfilled tt)) current)
     = false
  /\ success (apply (handleRequestCode translate s (fulfilled tt)) current)
     = match selectedMethod s with
       | Some method_email => t translate "forgotPassword.codeSentEmail"
       | _ => t translate "forgotPassword.codeSent"
       end
  /\ step_of (render translate
                (apply (handleRequestCode translate s (fulfilled tt)) current))
     = step4.
Proof.
  intros Hstep. rewrite render_step in *.
  destruct current as [a1 a2 a3 a4 a5 a6 a7 a8 a9 a10 a11 a12 a13].
  simpl in *.
  destruct a11, a12, a10, a9; try discriminate Hstep; repeat split.
Qed.

(** X4: a submission that passes the checks issues exactly one request,
    to the with-old endpoint with the old password when the old-password
    flag is set, and to the code endpoint with the code when it is not. *)
Theorem X4_one_reset_endpoint (s : State) (result : Settled unit) :
  newPassword s = confirmPassword s ->
  (6 <= js_length (newPassword s))%nat ->
  calls (handleResetPassword translate s result)
  = [if useOldPassword s
     then ("/auth/reset-password-with-old",
           [("telegramId", JsNumberOf (telegramId s));
            ("oldPassword", JsString (oldPassword s));
            ("newPassword", JsString (newPassword s))])
     else ("/auth/reset-password",
           [("telegramId", JsNumberOf (telegramId s));
            ("code", JsString (code s));
            ("newPassword", JsString (newPassword s))])].
Proof.
  intros Heq Hlen.
  rewrite (handleResetPassword_valid translate s result Heq Hlen).
  destruct (useOldPassword s), result; reflexivity.
Qed.

(** X5: [handleResetPassword] issues a request exactly when the new
    password equals the confirmation and its [.length] (in UTF-16 code
    units) is 6 or more. *)
Theorem X5_request_iff_checks_pass (s : State) (result : Settled unit) :
  calls (handleResetPassword translate s result) <> []
  <-> (newPassword s = confirmPassword s
       /\ (6 <= js_length (newPassword s))%nat).
Proof.
  destruct (String.eqb_spec (newPassword s) (confirmPassword s)) as [Heq|Hne].
  - destruct (Nat.lt_ge_cases (js_length (newPassword s)) 6)
      as [Hlt|Hge].
    + rewrite (handleResetPassword_tooShort translate s result Heq Hlt).
      simpl. split; [congruence | lia].
    + rewrite (handleResetPassword_valid translate s result Heq Hge).
      destruct (useOldPassword s); simpl;
        (split; [intros _; split; assumption | discriminate]).
  - rewrite (handleResetPassword_mismatch translate s result Hne).
    simpl. split; [congruence | intros [Heq _]; contradiction].
Qed.

(** X6: each handler that issues a request sets its busy flag before the
    request and clears it after, whether the request is fulfilled or
    rejected; the submit button of the first form is disabled in between. *)
Theorem X6_busy_flag_bracket (s1 s2 s3 current : State)
    (options : Settled RecoveryOptions) (result : Settled unit) :
  newPassword s3 = confirmPassword s3 ->
  (6 <= js_length (newPassword s3))%nat ->
  (optionsLoading
     (apply (until_await (handleCheckOptions translate s1 options)) current)
   = true
   /\ optionsLoading
        (apply (handleCheckOptions translate s1 options) current) = false)
  /\ (loading
        (apply (until_await (handleRequestCode translate s2 result)) current)
      = true
      /\ loading (apply (handleRequestCode translate s2 result) current)
         = false)
  /\ (loading
        (apply (until_await (handleResetPassword translate s3 result))
               current)
      = true
      /\ loading (apply (handleResetPassword translate s3 result) current)
         = false).
Proof.
  intros Heq Hlen.
  rewrite (handleResetPassword_valid translate s3 result Heq Hlen).
  unfold handleCheckOptions, handleRequestCode.
  destruct current as [a1 a2 a3 a4 a5 a6 a7 a8 a9 a10 a11 a12 a13].
  destruct options as [[[] [] masked]|e1], result as [[]|e2],
    (useOldPassword s3); repeat split.
Qed.

(** X8: the last button of the last form.  On the code path it leads back
    to the send-code step with the code field emptied; on the old-password
    path it clears the flag and the old password, and the first form is
    next when no recovery options are loaded.  Both ways the messages are
    cleared and the identifier and the two new-password fields are kept. *)
Theorem X8_back_button (s : State) :
  step_of (render translate s) = step4 ->
  (error (apply (onClick_back s) s) = EmptyString
   /\ success (apply (onClick_back s) s) = EmptyString
   /\ telegramId (apply (onClick_back s) s) = telegramId s
   /\ newPassword (apply (onClick_back s) s) = newPassword s
   /\ confirmPassword (apply (onClick_back s) s) = confirmPassword s)
  /\ (if useOldPassword s
      then useOldPassword (apply (onClick_back s) s) = false
           /\ oldPassword (apply (onClick_back s) s) = EmptyString
           /\ code (apply (onClick_back s) s) = code s
           /\ (recoveryOptions s = None ->
               step_of (render translate (apply (onClick_back s) s)) = step1)
      else code (apply (onClick_back s) s) = EmptyString
           /\ oldPassword (apply (onClick_back s) s) = oldPassword s
           /\ step_of (render translate (apply (onClick_back s) s)) = step3).
Proof.
  intros Hstep. rewrite render_step in Hstep.
  destruct s as [a1 a2 a3 a4 a5 a6 a7 a8 a9 a10 a11 a12 a13].
  unfold onClick_back. simpl in *.
  destruct a10; simpl.
  - repeat split. intros ->. reflexivity.
  - destruct a11, a12, a9; try discriminate Hstep. repeat split.
Qed.

(** X9: choosing the old-password path on the first form and going back
    with the last button of the form it leads to returns the state there
    was, with the old password and the messages emptied. *)
Theorem X9_old_password_and_back (s : State) :
  useOldPassword s = false ->
  apply (onClick_back (apply onClick_useOldPassword s))
        (apply onClick_useOldPassword s)
  = apply [setOldPassword EmptyString; setError EmptyString;
           setSuccess EmptyString] s.
Proof.
  destruct s as [a1 a2 a3 a4 a5 a6 a7 a8 a9 a10 a11 a12 a13].
  simpl. intros ->. reflexivity.
Qed.

(** X10: cancelling after a fulfilled lookup undoes it: the state is what
    [resetState] alone would have given, with the lookup's busy flag
    cleared, whatever the lookup reported. *)
Theorem X10_lookup_then_cancel (s current : State)
    (opts : RecoveryOptions) :
  apply resetState
        (apply (handleCheckOptions translate s (fulfilled opts)) current)
  = update (setOptionsLoading false) (apply resetState current).
Proof.
  unfold handleCheckOptions.
  destruct current as [a1 a2 a3 a4 a5 a6 a7 a8 a9 a10 a11 a12 a13].
  destruct (telegram opts), (email opts); reflexivity.
Qed.

End Handlers.

(** ** Sessions *)

(** Splits the conditionals a handler leaves once the cells are known. *)
Ltac split_branches :=
  repeat match goal with
         | |- context [if ?c then _ else _] =>
             lazymatch type of c with bool => idtac end;
             lazymatch c with true => fail | false => fail | _ => idtac end;
             destruct c; simpl
         end.

Section SettledSessions.

Import Flow.

Variable translate : string -> list (string * string) -> string.

(** An interaction that runs to its end keeps the cells coherent and
    moves between steps along [may_follow]. *)
Lemma settled_step_coherent (s s' : State) :
  coherent s -> settled_step translate s s' ->
  coherent s'
  /\ may_follow (step_of (render translate s)) (step_of (render translate s'))
     = true.
Proof.
  intros Hcoh Hstep.
  destruct Hstep as [s ev options result Hoff].
  rewrite !render_step. revert Hoff. unfold render, coherent in *.
  destruct s as [a1 a2 a3 a4 a5 a6 a7 a8 a9 a10 a11 a12 a13].
  simpl in Hcoh. destruct Hcoh as (H1 & H2 & H3 & -> & ->).
  destruct a11 as [[tg em masked]|], a12 as [[]|], a10, a9;
    try (specialize (H1 eq_refl); discriminate H1);
    try (exfalso; apply H2; [discriminate | reflexivity]);
    try (exfalso; apply H3; reflexivity);
    clear H1 H2 H3; simpl;
    destruct ev; simpl; intros Hoff; try discriminate Hoff;
    unfold handleCheckOptions, handleRequestCode, handleResetPassword,
      onClick_back; simpl;
    try (destruct options as [[[] [] masked']|e]);
    try (destruct result as [[]|e']);
    try (destruct m; try (destruct em; discriminate Hoff));
    simpl; split_branches; simpl;
    (split; [repeat split; intros; congruence | reflexivity]).
Qed.

Lemma settled_sessions_coherent (s : State) :
  rtc (settled_step translate) initial s -> coherent s.
Proof.
  revert s. apply rtc_ind_r.
  - unfold coherent. simpl. repeat split; intros; congruence.
  - intros y z _ Hstep IH. apply (settled_step_coherent y z IH Hstep).
Qed.

(** X11: in sessions whose requests never overlap another event, the
    cells stay coherent: the old-password flag is set only while no
    recovery options are loaded, a method is selected only while options
    are loaded, a code counts as sent only while a method is selected, and
    both busy flags are clear between interactions. *)
Theorem X11_settled_sessions_coherent (s : State) :
  rtc (settled_step translate) initial s ->
  (useOldPassword s = true -> recoveryOptions s = None)
  /\ (selectedMethod s <> None -> recoveryOptions s <> None)
  /\ (codeSent s = true -> selectedMethod s <> None)
  /\ loading s = false
  /\ optionsLoading s = false.
Proof. apply settled_sessions_coherent. Qed.

(** X12: in such sessions every interaction moves between the steps of
    the markup along these lines only: from the method list to the first
    form or the send-code step, from the send-code step to the method list
    or the last form, from the last form to the send-code step or the
    first form, or it stays on its step (the method list has no such
    interaction); the first form leads anywhere. *)
Theorem X12_settled_moves (s s' : State) :
  rtc (settled_step translate) initial s ->
  settled_step translate s s' ->
  may_follow (step_of (render translate s)) (step_of (render translate s'))
  = true.
Proof.
  intros Hrun Hstep.
  apply (settled_step_coherent s s' (settled_sessions_coherent s Hrun) Hstep).
Qed.

(** X13: in such sessions, whenever the old-password flag is set the last
    form is rendered, and the view offers neither the lookup, nor a method
    button, nor the code request. *)
Theorem X13_settled_old_password_path (s : State) :
  rtc (settled_step translate) initial s ->
  useOldPassword s = true ->
  render translate s = view_step4 translate s
  /\ offers (render translate s) submit_checkOptions = false
  /\ offers (render translate s) click_requestCode = false
  /\ (forall m, offers (render translate s) (click_method m) = false).
Proof.
  intros Hrun Hold.
  destruct (settled_sessions_coherent s Hrun) as (H1 & _).
  specialize (H1 Hold). unfold render. rewrite H1, Hold. simpl.
  repeat split.
Qed.

(** An interaction that runs to its end keeps this: the success message
    is empty, or the error is empty and the last form is shown. *)
Lemma settled_step_messages (s s' : State) :
  coherent s ->
  success s = EmptyString
  \/ (error s = EmptyString /\ step_of (render translate s) = step4) ->
  settled_step translate s s' ->
  success s' = EmptyString
  \/ (error s' = EmptyString /\ step_of (render translate s') = step4).
Proof.
  intros Hcoh Hmsg Hstep.
  destruct Hstep as [s ev options result Hoff].
  rewrite !render_step in *. revert Hoff. unfold render, coherent in *.
  destruct s as [a1 a2 a3 a4 a5 a6 a7 a8 a9 a10 a11 a12 a13].
  simpl in Hcoh, Hmsg. destruct Hcoh as (H1 & H2 & H3 & -> & ->).
  destruct a11 as [[tg em masked]|], a12 as [[]|], a10, a9;
    try (specialize (H1 eq_refl); discriminate H1);
    try (exfalso; apply H2; [discriminate | reflexivity]);
    try (exfalso; apply H3; reflexivity);
    clear H1 H2 H3; simpl;
    destruct ev; simpl; intros Hoff; try discriminate Hoff;
    unfold handleCheckOptions, handleRequestCode, handleResetPassword,
      onClick_back; simpl;
    try (destruct options as [[[] [] masked']|e]);
    try (destruct result as [[]|e']);
    try (destruct m; try (destruct em; discriminate Hoff));
    simpl; split_branches; simpl;
    first [ left; reflexivity
          | right; split; reflexivity
          | destruct Hmsg as [->|[-> Hlast]];
            first [ left; reflexivity
                  | right; split; reflexivity
                  | discriminate Hlast ] ].
Qed.

(** X7: in sessions whose requests never overlap another event, the
    error and the success message are never both set, and a success
    message is set only while the last form is shown. *)
Theorem X7_settled_error_or_success (s : State) :
  rtc (settled_step translate) initial s ->
  (error s = EmptyString \/ success s = EmptyString)
  /\ (success s = EmptyString \/ step_of (render translate s) = step4).
Proof.
  intros Hrun.
  assert (Hinv :
    coherent s
    /\ (success s = EmptyString
        \/ (error s = EmptyString
            /\ step_of (render translate s) = step4))).
  { revert s Hrun. apply rtc_ind_r.
    - split; [|left; reflexivity].
      unfold coherent. simpl. repeat split; intros; congruence.
    - intros y z _ Hstep [Hcoh Hmsg]. split.
      + apply (settled_step_coherent y z Hcoh Hstep).
      + apply (settled_step_messages y z Hcoh Hmsg Hstep). }
  destruct Hinv as [_ [Hnone|[Herr Hlast]]].
  - split; [right|left]; exact Hnone.
  - split; [left; exact Herr | right; exact Hlast].
Qed.

End SettledSessions.

(** ** Sessions with requests in flight *)

Lemma input_free_frame (k : Script) (s : State) :
  forallb Flow.input_free k = true -> Flow.same_inputs (apply k s) s.
Proof.
  revert s. induction k as [|e k IH]; intros s Hall.
  - repeat split.
  - simpl in Hall. apply andb_prop in Hall as [He Hk].
    simpl. specialize (IH (update e s) Hk).
    assert (Hu : Flow.same_inputs (update e s) s)
      by (destruct e; try discriminate He; destruct s; repeat split).
    unfold Flow.same_inputs in *.
    destruct IH as (I1 & I2 & I3 & I4 & I5 & I6).
    destruct Hu as (U1 & U2 & U3 & U4 & U5 & U6).
    repeat split; congruence.
Qed.

Section Sessions.

Import Flow.

Variable translate : string -> list (string * string) -> string.

(** What an offered control does to the busy flags and to the requests in
    flight: nothing, or it starts the one lookup, or the one submission. *)
Lemma event_flags (s : State) (ev : UserEvent)
    (options : Settled RecoveryOptions) (result : Settled unit) :
  offers (render translate s) ev = true ->
  match awaited (reaction translate s ev options result) with
  | [] =>
      optionsLoading
        (apply (until_await (reaction translate s ev options result)) s)
      = optionsLoading s
      /\ loading
           (apply (until_await (reaction translate s ev options result)) s)
         = loading s
  | p :: rest =>
      rest = []
      /\ if is_lookup p
         then ends_lookup (snd p)
              /\ optionsLoading s = false
              /\ optionsLoading
                   (apply (until_await
                             (reaction translate s ev options result)) s)
                 = true
              /\ loading
                   (apply (until_await
                             (reaction translate s ev options result)) s)
                 = loading s
         else ends_submission (snd p)
              /\ loading s = false
              /\ loading
                   (apply (until_await
                             (reaction translate s ev options result)) s)
                 = true
              /\ optionsLoading
                   (apply (until_await
                             (reaction translate s ev options result)) s)
                 = optionsLoading s
  end.
Proof.
  unfold render, awaited, ends_lookup, ends_submission.
  destruct s as [a1 a2 a3 a4 a5 a6 a7 a8 a9 a10 a11 a12 a13].
  destruct a11 as [[tg em masked]|], a12 as [[]|], a10, a9; simpl;
    destruct ev; simpl; intros Hoff; try discriminate Hoff;
    try (apply negb_true_iff in Hoff; subst);
    unfold handleCheckOptions, handleRequestCode, handleResetPassword,
      onClick_back; simpl;
    try (destruct options as [[[] [] masked']|e]);
    try (destruct result as [[]|e']);
    simpl; split_branches; simpl;
    repeat split;
    try (match goal with s0 : State |- _ => destruct s0; reflexivity end).
Qed.

(** The actions that follow a request never write an input field or the
    old-password flag. *)
Lemma continuation_input_free (s : State) (ev : UserEvent)
    (options : Settled RecoveryOptions) (result : Settled unit) :
  Forall (fun p => forallb input_free (snd p) = true)
         (awaited (reaction translate s ev options result)).
Proof.
  unfold awaited.
  destruct ev; simpl; try (constructor; fail);
    unfold handleCheckOptions, handleRequestCode, handleResetPassword,
      onClick_back; simpl;
    try (destruct options as [[[] [] masked']|e]);
    try (destruct result as [[]|e']);
    simpl; split_branches; simpl;
    repeat constructor.
Qed.

Lemma session_step_flags (x x' : Session) :
  flags_track_requests x -> session_step translate x x' ->
  flags_track_requests x'.
Proof.
  intros (Hall & Hlook & Hsub) Hstep.
  destruct Hstep
    as [x ev options result Hoff | x before request k after Hfl].
  - pose proof (event_flags (shown x) ev options result Hoff) as Hev.
    unfold flags_track_requests, lookups, submissions in *. simpl.
    destruct (awaited (reaction translate (shown x) ev options result))
      as [|p rest].
    + destruct Hev as [-> ->]. rewrite app_nil_r. auto.
    + destruct Hev as [-> Hp].
      rewrite !List.filter_app, !List.length_app. simpl.
      destruct (is_lookup p) eqn:Hkind; simpl;
        destruct Hp as (Hends & Hwas & -> & ->).
      * rewrite Hwas in Hlook.
        split; [|lia].
        apply Forall_app. split; [exact Hall|].
        constructor; [rewrite Hkind; exact Hends | constructor].
      * rewrite Hwas in Hsub.
        split; [|lia].
        apply Forall_app. split; [exact Hall|].
        constructor; [rewrite Hkind; exact Hends | constructor].
  - unfold flags_track_requests, lookups, submissions in *. simpl.
    rewrite Hfl in *.
    apply Forall_app in Hall as [Hbefore Hrest].
    apply Forall_cons in Hrest as [Hk Hafter].
    rewrite !List.filter_app, !List.length_app in *. simpl in *.
    destruct (is_lookup (request, k)) eqn:Hkind; simpl in *;
      destruct (Hk (shown x)) as [-> ->].
    + split; [apply Forall_app; split; assumption|].
      destruct (optionsLoading (shown x)); lia.
    + split; [apply Forall_app; split; assumption|].
      destruct (loading (shown x)); lia.
Qed.

(** X14: from the mount on, however events and requests interleave, at
    most one lookup and at most one submission (code request or reset) are
    in flight at any time: there is one in flight exactly while the busy
    flag of its kind is set. *)
Theorem X14_one_request_per_busy_flag (x : Session) :
  rtc (session_step translate) mounted x ->
  length (lookups x) = (if optionsLoading (shown x) then 1 else 0)%nat
  /\ length (submissions x) = (if loading (shown x) then 1 else 0)%nat.
Proof.
  intros Hrun.
  assert (Hinv : flags_track_requests x).
  { revert x Hrun. apply rtc_ind_r.
    - repeat split. constructor.
    - intros y z _ Hstep IH. apply (session_step_flags y z IH Hstep). }
  destruct Hinv as (_ & Hlook & Hsub). split; assumption.
Qed.

(** X15: from the mount on, however events and requests interleave, a
    request that settles leaves the five input fields and the old-password
    flag as they are at that moment. *)
Theorem X15_settling_keeps_inputs (x : Session)
    (before after : list ((string * Body) * Script))
    (request : string * Body) (continuation : Script) :
  rtc (session_step translate) mounted x ->
  in_flight x = before ++ (request, continuation) :: after ->
  same_inputs (apply continuation (shown x)) (shown x).
Proof.
  intros Hrun Hfl.
  assert (Hinv : Forall (fun p => forallb input_free (snd p) = true)
                        (in_flight x)).
  { clear Hfl. revert x Hrun. apply rtc_ind_r.
    - constructor.
    - intros y z _ Hstep IH.
      destruct Hstep as [y ev options result _ | y b r k a Hy]; simpl.
      + apply Forall_app. split; [exact IH|].
        apply continuation_input_free.
      + rewrite Hy in IH. apply Forall_app in IH as [Hb Hrest].
        apply Forall_cons in Hrest as [_ Ha].
        apply Forall_app. split; assumption. }
  rewrite Hfl in Hinv. apply Forall_app in Hinv as [_ Hrest].
  apply Forall_cons in Hrest as [Hk _].
  apply input_free_frame. exact Hk.
Qed.

End Sessions.

(** ** Further properties of the HTTP client and of the timer *)

Section InterceptorAgain.

Import AxiosConfig.

Context {D : Type}.

(** X16: passing a request through the interceptor twice gives what
    passing it once gives. *)
Theorem X16_interceptor_idempotent (localStorage : gmap string string)
    (config : RequestConfig D) :
  request_interceptor localStorage
    (request_interceptor localStorage config)
  = request_interceptor localStorage config.
Proof.
  unfold request_interceptor.
  destruct (getItem localStorage "accessToken") as [token|];
    [|reflexivity].
  destruct (truthy token); [|reflexivity].
  simpl. f_equal. apply insert_insert_eq.
Qed.

End InterceptorAgain.

Lemma loop_step_one_timer (due : N) (path : string)
    (navs : list (N * string)) (w w' : World) :
  (timers w = [(due, navigate_to path)] /\ navigations w = navs)
  \/ (timers w = []
      /\ exists tm, (due <= tm)%N /\ navigations w = (tm, path) :: navs) ->
  loop_step w w' ->
  (timers w' = [(due, navigate_to path)] /\ navigations w' = navs)
  \/ (timers w' = []
      /\ exists tm, (due <= tm)%N /\ navigations w' = (tm, path) :: navs).
Proof.
  intros Hw Hstep.
  destruct Hstep as [w d | w due' cb before after Htimers Hdue].
  - exact Hw.
  - destruct Hw as [[Hone Hnavs]|[Hnone _]].
    + rewrite Hone in Htimers.
      destruct before as [|b before].
      * injection Htimers as Hd Hcb Hafter. subst due' cb after.
        right. simpl. split; [reflexivity|].
        exists (clock w). split; [exact Hdue | rewrite Hnavs; reflexivity].
      * injection Htimers as _ Hrest.
        destruct before; discriminate Hrest.
    + rewrite Hnone in Htimers. destruct before; discriminate Htimers.
Qed.

Section NavigationAgain.

Variable translate : string -> list (string * string) -> string.

(** X17: after a successful reset in a browser with no other timer
    pending, however the event loop runs, either the timer is still
    pending and nothing was navigated, or it is gone and exactly one
    navigation, to the login view, was added. *)
Theorem X17_reset_navigates_once (s : State) (latency : N) (w0 w : World) :
  newPassword s = confirmPassword s ->
  (6 <= js_length (newPassword s))%nat ->
  timers w0 = [] ->
  rtc loop_step
      (run latency (handleResetPassword translate s (fulfilled tt)) w0) w ->
  (timers w = [((clock w0 + latency + 2000)%N, navigate_to "/login")]
   /\ navigations w = navigations w0)
  \/ (timers w = []
      /\ exists tm, (clock w0 + latency + 2000 <= tm)%N
                    /\ navigations w = (tm, "/login") :: navigations w0).
Proof.
  intros Heq Hlen Hquiet.
  assert (Hstart :
    timers (run latency (handleResetPassword translate s (fulfilled tt)) w0)
    = [((clock w0 + latency + 2000)%N, navigate_to "/login")]
    /\ navigations
         (run latency (handleResetPassword translate s (fulfilled tt)) w0)
       = navigations w0).
  { rewrite (handleResetPassword_valid translate s (fulfilled tt) Heq Hlen).
    destruct w0 as [c now tms navs reqs]. simpl in Hquiet. subst tms.
    destruct (useOldPassword s); split; reflexivity. }
  revert w. apply rtc_ind_r.
  - left. exact Hstart.
  - intros y z _ Hstep IH.
    apply (loop_step_one_timer _ _ _ y z IH Hstep).
Qed.

End NavigationAgain.

(** ** Concrete instances of the further properties *)

Lemma X2_both_channels_witness :
  render Examples.keys_as_text
    (apply (handleCheckOptions Examples.keys_as_text Examples.identified
              (fulfilled Examples.both_channels))
           Examples.identified)
  = ChooseMethod "forgotPassword.chooseMethod"
      [telegram_button; email_button "a***@b.com"].
Proof.
  apply (X2_lookup_without_single_channel Examples.keys_as_text
           Examples.identified Examples.identified Examples.both_channels);
    reflexivity.
Defined.

Lemma X3_code_request_witness :
  success (apply (handleRequestCode Examples.keys_as_text
                    (Examples.lookup_settled Examples.only_email)
                    (fulfilled tt))
                 (Examples.lookup_settled Examples.only_email))
  = "forgotPassword.codeSentEmail"
  /\ step_of (render Examples.keys_as_text
                (apply (handleRequestCode Examples.keys_as_text
                          (Examples.lookup_settled Examples.only_email)
                          (fulfilled tt))
                       (Examples.lookup_settled Examples.only_email)))
     = step4.
Proof.
  destruct (X3_code_request_success Examples.keys_as_text
              (Examples.lookup_settled Examples.only_email)
              (Examples.lookup_settled Examples.only_email))
    as (_ & _ & _ & Hsuccess & Hstep).
  - reflexivity.
  - split; [exact Hsuccess | exact Hstep].
Defined.

Lemma X4_reset_endpoint_witness :
  calls (handleResetPassword Examples.keys_as_text Examples.well_filled
           (fulfilled tt))
  = [("/auth/reset-password",
      [("telegramId", JsNumberOf "12345"); ("code", JsString "000000");
       ("newPassword", JsString "secret1")])].
Proof.
  apply (X4_one_reset_endpoint Examples.keys_as_text Examples.well_filled
           (fulfilled tt)); [reflexivity | vm_compute; lia].
Defined.

Lemma X5_accented_password_witness :
  (js_length (newPassword FlowExamples.short_with_accents) < 6)%nat
  /\ calls (handleResetPassword Examples.keys_as_text
              FlowExamples.short_with_accents (fulfilled tt)) = []
  /\ calls (handleResetPassword Examples.keys_as_text Examples.well_filled
              (fulfilled tt)) <> [].
Proof.
  assert (Hlen : (js_length (newPassword FlowExamples.short_with_accents)
                  < 6)%nat) by (vm_compute; lia).
  split; [exact Hlen|]. split.
  - destruct (calls (handleResetPassword Examples.keys_as_text
                       FlowExamples.short_with_accents (fulfilled tt)))
      as [|request rest] eqn:Hcalls; [reflexivity|].
    exfalso.
    assert (Hsent : calls (handleResetPassword Examples.keys_as_text
                             FlowExamples.short_with_accents (fulfilled tt))
                    <> []) by (rewrite Hcalls; discriminate).
    apply (X5_request_iff_checks_pass Examples.keys_as_text
             FlowExamples.short_with_accents (fulfilled tt)) in Hsent.
    destruct Hsent as [_ Hge]. lia.
  - apply (X5_request_iff_checks_pass Examples.keys_as_text
             Examples.well_filled (fulfilled tt)).
    split; [reflexivity | vm_compute; lia].
Defined.

Lemma X7_code_sent_witness :
  success FlowExamples.code_sent_by_email = "forgotPassword.codeSentEmail"
  /\ error FlowExamples.code_sent_by_email = EmptyString
  /\ step_of (render Examples.keys_as_text FlowExamples.code_sent_by_email)
     = step4.
Proof.
  split; [reflexivity|].
  destruct (X7_settled_error_or_success Examples.keys_as_text
              FlowExamples.code_sent_by_email) as [[Herr|Hnone] [Hnone'|Hlast]].
  - eapply rtc_l.
    + apply (Flow.settled_event Examples.keys_as_text initial
               Flow.submit_checkOptions (fulfilled Examples.only_email)
               (fulfilled tt)).
      reflexivity.
    + apply rtc_once.
      apply (Flow.settled_event Examples.keys_as_text
               FlowExamples.email_selected Flow.click_requestCode
               (fulfilled Examples.only_email) (fulfilled tt)).
      reflexivity.
  - discriminate Hnone'.
  - split; [exact Herr | exact Hlast].
  - discriminate Hnone.
  - discriminate Hnone.
Defined.

Lemma X6_busy_flag_witness :
  loading (apply (until_await
                    (handleResetPassword Examples.keys_as_text
                       Examples.well_filled
                       (rejected Examples.network_down)))
                 Examples.well_filled)
  = true
  /\ loading (apply (handleResetPassword Examples.keys_as_text
                       Examples.well_filled
                       (rejected Examples.network_down))
                    Examples.well_filled)
     = false.
Proof.
  apply (X6_busy_flag_bracket Examples.keys_as_text Examples.identified
           Examples.identified Examples.well_filled Examples.well_filled
           (rejected Examples.network_down)
           (rejected Examples.network_down));
    [reflexivity | vm_compute; lia].
Defined.

Lemma X8_back_button_witness :
  code (apply (onClick_back Examples.well_filled) Examples.well_filled)
  = EmptyString
  /\ oldPassword (apply (onClick_back Examples.well_filled)
                        Examples.well_filled)
     = oldPassword Examples.well_filled
  /\ step_of (render Examples.keys_as_text
                (apply (onClick_back Examples.well_filled)
                       Examples.well_filled))
     = step3.
Proof.
  apply (X8_back_button Examples.keys_as_text Examples.well_filled).
  reflexivity.
Defined.

Lemma X9_old_password_and_back_witness :
  apply (onClick_back (apply onClick_useOldPassword Examples.identified))
        (apply onClick_useOldPassword Examples.identified)
  = Examples.identified.
Proof.
  apply (X9_old_password_and_back Examples.identified). reflexivity.
Defined.

Lemma X11_coherent_witness :
  (useOldPassword FlowExamples.on_old_password_path = true ->
   recoveryOptions FlowExamples.on_old_password_path = None)
  /\ (selectedMethod FlowExamples.on_old_password_path <> None ->
      recoveryOptions FlowExamples.on_old_password_path <> None)
  /\ (codeSent FlowExamples.on_old_password_path = true ->
      selectedMethod FlowExamples.on_old_password_path <> None)
  /\ loading FlowExamples.on_old_password_path = false
  /\ optionsLoading FlowExamples.on_old_password_path = false.
Proof.
  apply (X11_settled_sessions_coherent Examples.keys_as_text).
  apply rtc_once.
  apply (Flow.settled_event Examples.keys_as_text initial
           Flow.click_useOldPassword (rejected Examples.network_down)
           (rejected Examples.network_down)).
  reflexivity.
Defined.

Lemma X12_settled_moves_witness :
  Flow.may_follow
    (step_of (render Examples.keys_as_text initial))
    (step_of (render Examples.keys_as_text FlowExamples.on_old_password_path))
  = true.
Proof.
  apply (X12_settled_moves Examples.keys_as_text initial
           FlowExamples.on_old_password_path).
  - apply rtc_refl.
  - apply (Flow.settled_event Examples.keys_as_text initial
             Flow.click_useOldPassword (rejected Examples.network_down)
             (rejected Examples.network_down)).
    reflexivity.
Defined.

Lemma X13_old_password_path_witness :
  render Examples.keys_as_text FlowExamples.on_old_password_path
  = view_step4 Examples.keys_as_text FlowExamples.on_old_password_path
  /\ Flow.offers (render Examples.keys_as_text
                    FlowExamples.on_old_password_path)
                 Flow.click_requestCode
     = false.
Proof.
  destruct (X13_settled_old_password_path Examples.keys_as_text
              FlowExamples.on_old_password_path)
    as (Hview & _ & Hcode & _).
  - apply rtc_once.
    apply (Flow.settled_event Examples.keys_as_text initial
             Flow.click_useOldPassword (rejected Examples.network_down)
             (rejected Examples.network_down)).
    reflexivity.
  - reflexivity.
  - split; [exact Hview | exact Hcode].
Defined.

Lemma X14_one_request_witness :
  length (Flow.lookups FlowExamples.lookup_pending) = 1%nat
  /\ length (Flow.submissions FlowExamples.lookup_pending) = 0%nat.
Proof.
  apply (X14_one_request_per_busy_flag Examples.keys_as_text
           FlowExamples.lookup_pending).
  apply rtc_once.
  apply (Flow.session_event Examples.keys_as_text Flow.mounted
           Flow.submit_checkOptions (fulfilled Examples.both_channels)
           (fulfilled tt)).
  reflexivity.
Defined.

Lemma X15_settling_keeps_inputs_witness :
  Flow.same_inputs
    (apply (after_await (handleCheckOptions Examples.keys_as_text initial
                           (fulfilled Examples.both_channels)))
           (Flow.shown FlowExamples.lookup_pending))
    (Flow.shown FlowExamples.lookup_pending).
Proof.
  apply (X15_settling_keeps_inputs Examples.keys_as_text
           FlowExamples.lookup_pending [] []
           ("/auth/recovery-options",
            [("telegramId", JsNumberOf EmptyString)])).
  - apply rtc_once.
    apply (Flow.session_event Examples.keys_as_text Flow.mounted
             Flow.submit_checkOptions (fulfilled Examples.both_channels)
             (fulfilled tt)).
    reflexivity.
  - reflexivity.
Defined.

Lemma X17_navigates_once_witness :
  (timers FlowExamples.at_login = [(2150%N, navigate_to "/login")]
   /\ navigations FlowExamples.at_login = [])
  \/ (timers FlowExamples.at_login = []
      /\ exists tm, (2150 <= tm)%N
                    /\ navigations FlowExamples.at_login = [(tm, "/login")]).
Proof.
  apply (X17_reset_navigates_once Examples.keys_as_text Examples.well_filled
           150 (Examples.quiet Examples.well_filled) FlowExamples.at_login).
  - reflexivity.
  - vm_compute; lia.
  - reflexivity.
  - eapply rtc_l; [apply (loop_tick _ 2000)|].
    apply rtc_once.
    exact (loop_fire
             {| component := component FlowExamples.reset_done;
                clock := 2150;
                timers := [(2150%N, navigate_to "/login")];
                navigations := [];
                requests := requests FlowExamples.reset_done |}
             2150%N (navigate_to "/login") [] [] eq_refl (N.le_refl 2150)).
Defined.

Lemma X18_other_headers_witness :
  AxiosConfig.headers
    (AxiosConfig.request_interceptor Examples.signed_in
       Examples.lookup_request) !! "Accept"
  = Some "application/json"
  /\ AxiosConfig.url
       (AxiosConfig.request_interceptor Examples.signed_in
          Examples.lookup_request)
     = "/auth/recovery-options".
Proof.
  destruct (request_interceptor_frame Examples.signed_in
              Examples.lookup_request "Accept")
    as (Hheader & _ & Hurl & _).
  - discriminate.
  - split; [exact Hheader | exact Hurl].
Defined.
